(** * Contact directory of [task.py]: field validation, records, the
    address book and its upcoming-birthday report.

    The development is a shallow embedding of [task.py].  Python values
    that the fields can receive are a small tagged union; [str] is a list
    of Unicode code points, so that [len] and [str.isdigit] mean what they
    mean in Python.  Exceptions are values of a result type.  [Phone]
    objects live in a store indexed by object identity, because
    [Record.edit_phone] mutates them in place; records are passed by
    value, since nothing below depends on two names for one record. *)

From Stdlib Require Import ZArith String Ascii Lia Bool.
From stdpp Require Import base option list gmap.

Local Open Scope Z_scope.

(** ** Python values *)

Module Py.

(** A [str] is a sequence of code points, a [bytes] a sequence of octets. *)
Definition pystr := list Z.

Inductive pyval : Type :=
| VNone
| VInt (n : Z)
| VStr (s : pystr)
| VBytes (b : list Z).

#[global] Instance pyval_eq_dec : EqDecision pyval.
Proof. solve_decision. Defined.

(** Code points of an ASCII literal. *)
Definition str (s : string) : pystr :=
  map (fun a => Z.of_N (N_of_ascii a)) (list_ascii_of_string s).
Arguments str s%_string.

(** [a == b]: on these four types equality is structural, and values of
    different types are never equal. *)
Definition py_eq (a b : pyval) : bool := bool_decide (a = b).

(** [bool(v)] *)
Definition truthy (v : pyval) : bool :=
  match v with
  | VNone => false
  | VInt n => negb (n =? 0)
  | VStr s => negb (bool_decide (s = []))
  | VBytes b => negb (bool_decide (b = []))
  end.

(** [type(v).__name__] *)
Definition type_name (v : pyval) : string :=
  match v with
  | VNone => "NoneType"
  | VInt _ => "int"
  | VStr _ => "str"
  | VBytes _ => "bytes"
  end.

(** *** Exceptions *)

(** A message is kept as the pieces it is formatted from: literal text,
    [str(v)] and [repr(v)] of an interpolated value. *)
Inductive fragment : Type :=
| Lit (s : string)
| StrOf (v : pyval)
| ReprOf (v : pyval).

Definition message := list fragment.

Inductive exn : Type :=
| ValueError (msg : message)
| AttributeError (msg : message)
| TypeError (msg : message).

Inductive result (A : Type) : Type :=
| Ok (a : A)
| Raise (e : exn).
Arguments Ok {A} a.
Arguments Raise {A} e.

Definition bind {A B} (r : result A) (k : A -> result B) : result B :=
  match r with
  | Ok a => k a
  | Raise e => Raise e
  end.

(** [try: r except ...: h e] *)
Definition try_except {A} (r : result A) (h : exn -> result A) : result A :=
  match r with
  | Ok a => Ok a
  | Raise e => h e
  end.

Definition is_ok {A} (r : result A) : bool :=
  match r with Ok _ => true | Raise _ => false end.

(** *** Unicode digits (Unicode 14.0.0, the database of CPython 3.11) *)

Definition in_ranges (t : list (Z * Z)) (c : Z) : bool :=
  existsb (fun r => (fst r <=? c) && (c <=? snd r)) t.

(** Characters of category Nd: [str.isdecimal], and [\d] in a [str]
    pattern.  Every range starts at a digit zero and holds whole runs
    of ten. *)
Definition decimal_ranges : list (Z * Z) :=
  [(48,57);(1632,1641);(1776,1785);(1984,1993);(2406,2415);(2534,2543);
   (2662,2671);(2790,2799);(2918,2927);(3046,3055);(3174,3183);(3302,3311);
   (3430,3439);(3558,3567);(3664,3673);(3792,3801);(3872,3881);(4160,4169);
   (4240,4249);(6112,6121);(6160,6169);(6470,6479);(6608,6617);(6784,6793);
   (6800,6809);(6992,7001);(7088,7097);(7232,7241);(7248,7257);(42528,42537);
   (43216,43225);(43264,43273);(43472,43481);(43504,43513);(43600,43609);
   (44016,44025);(65296,65305);(66720,66729);(68912,68921);(69734,69743);
   (69872,69881);(69942,69951);(70096,70105);(70384,70393);(70736,70745);
   (70864,70873);(71248,71257);(71360,71369);(71472,71481);(71904,71913);
   (72016,72025);(72784,72793);(73040,73049);(73120,73129);(92768,92777);
   (92864,92873);(93008,93017);(120782,120831);(123200,123209);
   (123632,123641);(125264,125273);(130032,130041)].

(** Characters with Numeric_Type=Digit that are not decimal: superscripts,
    subscripts, circled digits and the like. *)
Definition digit_only_ranges : list (Z * Z) :=
  [(178,179);(185,185);(4969,4977);(6618,6618);(8304,8304);(8308,8313);
   (8320,8329);(9312,9320);(9332,9340);(9352,9360);(9450,9450);(9461,9469);
   (9471,9471);(10102,10110);(10112,10120);(10122,10130);(68160,68163);
   (69216,69224);(69714,69722);(127232,127242)].

Definition isdecimal_char (c : Z) : bool := in_ranges decimal_ranges c.

Definition isdigit_char (c : Z) : bool :=
  isdecimal_char c || in_ranges digit_only_ranges c.

Definition is_ascii_digit (c : Z) : bool := (48 <=? c) && (c <=? 57).

(** The decimal value of a character of category Nd. *)
Definition decimal_value (c : Z) : Z :=
  match List.find (fun r => (fst r <=? c) && (c <=? snd r)) decimal_ranges with
  | Some r => (c - fst r) mod 10
  | None => 0
  end.

(** [str.isdigit]: true when the string is not empty and all of its
    characters are digits. *)
Definition str_isdigit (s : pystr) : bool :=
  negb (bool_decide (s = [])) && forallb isdigit_char s.

(** [bytes.isdigit]: the same with ASCII digits. *)
Definition bytes_isdigit (b : list Z) : bool :=
  negb (bool_decide (b = [])) && forallb is_ascii_digit b.

Definition no_attribute (v : pyval) (attr : string) : exn :=
  AttributeError [Lit "'"; Lit (type_name v); Lit "' object has no attribute '";
                  Lit attr; Lit "'"].

(** [v.isdigit()] *)
Definition isdigit (v : pyval) : result bool :=
  match v with
  | VStr s => Ok (str_isdigit s)
  | VBytes b => Ok (bytes_isdigit b)
  | _ => Raise (no_attribute v "isdigit")
  end.

(** [len(v)] *)
Definition len (v : pyval) : result Z :=
  match v with
  | VStr s => Ok (Z.of_nat (length s))
  | VBytes b => Ok (Z.of_nat (length b))
  | _ => Raise (TypeError [Lit "object of type '"; Lit (type_name v);
                           Lit "' has no len()"])
  end.

End Py.
Import Py.

#[global] Instance result_ret : MRet result := @Ok.
#[global] Instance result_bind : MBind result := fun A B k r => bind r k.

(** ** Fields *)

(** [class Field]: an object with one attribute, [value]. *)
Record Field : Type := mkField { value : pyval }.

(** [class Name(Field)] *)
Definition Name (v : pyval) : result Field :=
  if negb (truthy v) then Raise (ValueError [Lit "Name cannot be empty"])
  else Ok (mkField v).

(** [class Phone(Field)].  [or] evaluates [len] only when [isdigit]
    returned true; an [AttributeError] of the body is replaced. *)
Definition Phone (v : pyval) : result Field :=
  try_except
    (d ← isdigit v;
     bad ← (if negb d then Ok true
            else n ← len v; Ok (negb (n =? 10)));
     if (bad : bool)
     then Raise (ValueError [Lit "Phone number must contain 10 digits"])
     else Ok (mkField v))
    (fun e =>
       match e with
       | AttributeError _ =>
           Raise (AttributeError [Lit "Invalid format number. Use 10 digits"])
       | _ => Raise e
       end).

(** ** Calendar dates: [datetime.date] *)

Module Date.

Record date : Type := mkDate { year : Z; month : Z; day : Z }.

Definition MINYEAR : Z := 1.
Definition MAXYEAR : Z := 9999.

Definition is_leap (y : Z) : bool :=
  (y mod 4 =? 0) && (negb (y mod 100 =? 0) || (y mod 400 =? 0)).

Definition DAYS_IN_MONTH (m : Z) : Z :=
  match m with
  | 1 => 31 | 2 => 28 | 3 => 31 | 4 => 30 | 5 => 31 | 6 => 30
  | 7 => 31 | 8 => 31 | 9 => 30 | 10 => 31 | 11 => 30 | 12 => 31
  | _ => -1
  end.

Definition DAYS_BEFORE_MONTH (m : Z) : Z :=
  match m with
  | 1 => 0 | 2 => 31 | 3 => 59 | 4 => 90 | 5 => 120 | 6 => 151
  | 7 => 181 | 8 => 212 | 9 => 243 | 10 => 273 | 11 => 304 | 12 => 334
  | _ => -1
  end.

Definition days_in_month (y m : Z) : Z :=
  if (m =? 2) && is_leap y then 29 else DAYS_IN_MONTH m.

Definition days_before_year (year : Z) : Z :=
  let y := year - 1 in y * 365 + y / 4 - y / 100 + y / 400.

Definition days_before_month (y m : Z) : Z :=
  DAYS_BEFORE_MONTH m + (if (2 <? m) && is_leap y then 1 else 0).

Definition ymd2ord (y m d : Z) : Z :=
  days_before_year y + days_before_month y m + d.

(** The fields of a date that can be built. *)
Definition valid (y m d : Z) : bool :=
  (MINYEAR <=? y) && (y <=? MAXYEAR) && (1 <=? m) && (m <=? 12)
  && (1 <=? d) && (d <=? days_in_month y m).

(** [date(y, m, d)] *)
Definition new (y m d : Z) : result date :=
  if negb ((MINYEAR <=? y) && (y <=? MAXYEAR))
  then Raise (ValueError [Lit "year "; StrOf (VInt y); Lit " is out of range"])
  else if negb ((1 <=? m) && (m <=? 12))
  then Raise (ValueError [Lit "month must be in 1..12"])
  else if negb ((1 <=? d) && (d <=? days_in_month y m))
  then Raise (ValueError [Lit "day is out of range for month"])
  else Ok (mkDate y m d).

(** [d.replace(year=y)] *)
Definition replace_year (d : date) (y : Z) : result date :=
  new y (month d) (day d).

Definition toordinal (d : date) : Z := ymd2ord (year d) (month d) (day d).

(** [(a - b).days] *)
Definition days_between (a b : date) : Z := toordinal a - toordinal b.

(** [d.isoweekday()]: Monday is 1, Sunday is 7. *)
Definition isoweekday (d : date) : Z :=
  let w := toordinal d mod 7 in if w =? 0 then 7 else w.

Definition digit (n : Z) : Z := 48 + n.

(** [%02d] of a number below one hundred. *)
Definition two_digits (n : Z) : pystr := [digit (n / 10); digit (n mod 10)].

(** [%Y] is left to the C library, which prints the year as a plain
    decimal number (glibc); from the year 1000 on that is four digits. *)
Definition year_digits (y : Z) : pystr :=
  if y <? 10 then [digit y]
  else if y <? 100 then two_digits y
  else if y <? 1000 then digit (y / 100) :: two_digits (y mod 100)
  else two_digits (y / 100) ++ two_digits (y mod 100).

(** [d.strftime('%d.%m.%Y')] *)
Definition strftime (d : date) : pystr :=
  two_digits (day d) ++ [46] ++ two_digits (month d) ++ [46]
  ++ year_digits (year d).

End Date.

(** ** [datetime.strptime(data_string, "%d.%m.%Y")] *)

Module Strptime.

Definition between (lo hi c : Z) : bool := (lo <=? c) && (c <=? hi).

(** One character of class [p]: the matched text and what follows it. *)
Definition one (p : Z -> bool) (s : pystr) : list (pystr * pystr) :=
  match s with
  | a :: r => if p a then [([a], r)] else []
  | _ => []
  end.

(** A character of class [p] followed by one of class [q]. *)
Definition two (p q : Z -> bool) (s : pystr) : list (pystr * pystr) :=
  match s with
  | a :: b :: r => if p a && q b then [([a; b], r)] else []
  | _ => []
  end.

(** A literal character. *)
Definition lit (c : Z) (s : pystr) : list pystr :=
  match s with
  | a :: r => if a =? c then [r] else []
  | _ => []
  end.

(** The groups of the format, each the list of its matches in the order
    in which the alternatives are tried.
    [%d]: [(3[0-1]|[1-2]\d|0[1-9]|[1-9]| [1-9])] *)
Definition re_d (s : pystr) : list (pystr * pystr) :=
  two (Z.eqb 51) (between 48 49) s
  ++ two (between 49 50) isdecimal_char s
  ++ two (Z.eqb 48) (between 49 57) s
  ++ one (between 49 57) s
  ++ two (Z.eqb 32) (between 49 57) s.

(** [%m]: [(1[0-2]|0[1-9]|[1-9])] *)
Definition re_m (s : pystr) : list (pystr * pystr) :=
  two (Z.eqb 49) (between 48 50) s
  ++ two (Z.eqb 48) (between 49 57) s
  ++ one (between 49 57) s.

(** [%Y]: [(\d\d\d\d)] *)
Definition re_Y (s : pystr) : list (pystr * pystr) :=
  match s with
  | a :: b :: c :: d :: r =>
      if isdecimal_char a && isdecimal_char b
         && isdecimal_char c && isdecimal_char d
      then [([a; b; c; d], r)] else []
  | _ => []
  end.

(** The matches of [%d\.%m\.%Y] at the start of the string in
    backtracking order, each as the three groups and the text after the
    end of the match. *)
Definition matches (s : pystr) : list (pystr * pystr * pystr * pystr) :=
  d ← re_d s;
  r1 ← lit 46 (snd d);
  m ← re_m r1;
  r2 ← lit 46 (snd m);
  y ← re_Y r2;
  [(fst d, fst m, fst y, snd y)].

(** [format_regex.match(data_string)]: the first match. *)
Definition format_regex_match (s : pystr)
  : option (pystr * pystr * pystr * pystr) :=
  head (matches s).

Fixpoint lstrip (s : pystr) : pystr :=
  match s with
  | c :: r => if c =? 32 then lstrip r else s
  | [] => []
  end.

(** [int(group)] for the text of a group: leading spaces are stripped,
    the rest are decimal digits of any script. *)
Definition py_int (s : pystr) : Z :=
  fold_left (fun acc c => 10 * acc + decimal_value c) (lstrip s) 0.

Definition format : pystr := str "%d.%m.%Y".

(** The date of the [datetime] that [strptime] returns (its time of day
    is midnight). *)
Definition strptime (data_string : pyval) : result Date.date :=
  match data_string with
  | VStr s =>
      match format_regex_match s with
      | None =>
          Raise (ValueError [Lit "time data "; ReprOf data_string;
                             Lit " does not match format ";
                             ReprOf (VStr format)])
      | Some (d, m, y, rest) =>
          if negb (bool_decide (rest = []))
          then Raise (ValueError [Lit "unconverted data remains: ";
                                  StrOf (VStr rest)])
          else Date.new (py_int y) (py_int m) (py_int d)
      end
  | _ =>
      Raise (TypeError [Lit "strptime() argument 1 must be str, not ";
                        Lit (match data_string with
                             | VNone => "None"
                             | _ => type_name data_string
                             end)])
  end.

End Strptime.

(** [class Birthday(Field)]: the value is stored first and parsed after;
    when parsing raises, the constructor raises and the object is never
    bound to a name. *)
Definition Birthday (v : pyval) : result Field :=
  let self := mkField v in
  try_except
    (_ ← Strptime.strptime v; Ok self)
    (fun e =>
       match e with
       | ValueError _ =>
           Raise (ValueError [Lit "Invalid date format. Use DD.MM.YYYY"])
       | TypeError _ =>
           Raise (TypeError [Lit "Invalid date format. Use DD.MM.YYYY"])
       | _ => Raise e
       end).

(** ** Records *)

(** The identity of a [Phone] object. *)
Definition loc := positive.

(** [class Record]: [phones] holds references to [Phone] objects. *)
Record RecordObj : Type := mkRecord {
  name : Field;
  phones : list loc;
  birthday : option Field
}.

Module Record.

(** What a method of a record can reach: the record itself and the
    [Phone] objects. *)
Record state : Type := mkState {
  store : gmap loc Field;
  self : RecordObj
}.

(** A method runs from a state to an outcome and the state it leaves. *)
Definition M (A : Type) : Type := state -> result A * state.

#[global] Instance M_ret : MRet M := fun A a st => (Ok a, st).
#[global] Instance M_bind : MBind M := fun A B k m st =>
  match m st with
  | (Ok a, st') => k a st'
  | (Raise e, st') => (Raise e, st')
  end.

(** An expression that reads and writes no state. *)
Definition pure {A} (r : result A) : M A := fun st => (r, st).

Definition raise {A} (e : exn) : M A := pure (Raise e).

Definition get_self : M RecordObj := fun st => (Ok (self st), st).

Definition set_phones (ps : list loc) : M unit := fun st =>
  (Ok (), mkState (store st)
                  (mkRecord (name (self st)) ps (birthday (self st)))).

Definition set_birthday (b : option Field) : M unit := fun st =>
  (Ok (), mkState (store st)
                  (mkRecord (name (self st)) (phones (self st)) b)).

Definition get_store : M (gmap loc Field) := fun st => (Ok (store st), st).

(** A new object gets an identity that no object has. *)
Definition alloc (f : Field) : M loc := fun st =>
  let l := fresh (dom (store st)) in
  (Ok l, mkState (<[l := f]> (store st)) (self st)).

(** [p.value = v] *)
Definition set_value (l : loc) (v : pyval) : M unit := fun st =>
  (Ok (), mkState (<[l := mkField v]> (store st)) (self st)).

(** [p.value == phone] for the object at [l]. *)
Definition value_is (σ : gmap loc Field) (phone : pyval) (l : loc) : bool :=
  match σ !! l with
  | Some f => py_eq (value f) phone
  | None => false
  end.

(** [Record(name)] *)
Definition init (n : pyval) : result RecordObj :=
  nm ← Name n; Ok (mkRecord nm [] None).

Definition add_birthday (b_day : pyval) : M unit :=
  b ← pure (Birthday b_day);
  set_birthday (Some b).

Definition add_phone (phone : pyval) : M unit :=
  p ← pure (Phone phone);
  l ← alloc p;
  r ← get_self;
  set_phones (phones r ++ [l]).

Definition remove_phone (phone : pyval) : M unit :=
  σ ← get_store;
  r ← get_self;
  set_phones (List.filter (fun l => negb (value_is σ phone l)) (phones r)).

Definition find_phone (phone : pyval) : M (option loc) :=
  σ ← get_store;
  r ← get_self;
  mret (List.find (value_is σ phone) (phones r)).

(** A [Phone] object is truthy, [None] is not. *)
Definition edit_phone (old_phone new_phone : pyval) : M unit :=
  old_phone_obj ← find_phone old_phone;
  match old_phone_obj with
  | Some l =>
      d ← pure (isdigit new_phone);
      bad ← pure (if negb d then Ok true
                  else n ← len new_phone; Ok (negb (n =? 10)));
      if (bad : bool)
      then raise (ValueError [Lit "New phone number must contain 10 digits"])
      else set_value l new_phone
  | None => raise (ValueError [Lit "Phone number not found."])
  end.

End Record.

(** ** The address book *)

Module AddressBook.

(** [self.data]: a [dict] keeps its keys in the order of their first
    insertion. *)
Definition book := list (pyval * RecordObj).

Definition keys (d : book) : list pyval := map fst d.

(** [self.data.values()] *)
Definition values (d : book) : list RecordObj := map snd d.

(** [k in d] *)
Definition contains (d : book) (k : pyval) : bool :=
  existsb (fun kv => py_eq (fst kv) k) d.

(** [d[k] = v]: the value of a present key is replaced where it stands,
    a new key goes to the end. *)
Definition setitem (d : book) (k : pyval) (v : RecordObj) : book :=
  if contains d k
  then map (fun kv => if py_eq (fst kv) k then (fst kv, v) else kv) d
  else d ++ [(k, v)].

(** [d.get(k)] *)
Definition get (d : book) (k : pyval) : option RecordObj :=
  snd <$> List.find (fun kv => py_eq (fst kv) k) d.

(** [del d[k]] for a present key. *)
Definition delitem (d : book) (k : pyval) : book :=
  List.filter (fun kv => negb (py_eq (fst kv) k)) d.

Definition add_record (d : book) (record : RecordObj) : book :=
  setitem d (value (name record)) record.

Definition find (d : book) (n : pyval) : option RecordObj := get d n.

(** The outcome and the book after the call. *)
Definition delete (d : book) (n : pyval) : result unit * book :=
  if contains d n then (Ok (), delitem d n)
  else (Raise (ValueError [Lit "Record with name '"; StrOf n;
                           Lit "' not found in the address book."]), d).

(** An element of the report: [{'name': ..., 'birthday': ...}]. *)
Record entry : Type := mkEntry {
  entry_name : pyval;
  entry_birthday : pystr
}.

(** One round of the loop of [get_upcoming_birthdays], from the list
    built so far to the list after the round. *)
Definition visit (today : Date.date) (birthdays : list entry)
    (user : RecordObj) : result (list entry) :=
  match birthday user with
  | Some b =>
      parsed ← Strptime.strptime (value b);
      birth_date ← Date.replace_year parsed (Date.year today);
      let difference_date := Date.days_between birth_date today in
      if (0 <=? difference_date) && (difference_date <=? 7)
      then
        if Date.isoweekday birth_date <? 6
        then Ok (birthdays ++ [mkEntry (value (name user))
                                       (Date.strftime birth_date)])
        else Ok (birthdays ++ [mkEntry (value (name user))
                                       (Date.strftime birth_date)])
      else Ok birthdays
  | None => Ok birthdays
  end.

(** [for user in users: ...] *)
Fixpoint loop (today : Date.date) (birthdays : list entry)
    (users : list RecordObj) : result (list entry) :=
  match users with
  | [] => Ok birthdays
  | user :: rest =>
      birthdays' ← visit today birthdays user;
      loop today birthdays' rest
  end.

(** [today] is the date that [datetime.today().date()] returns. *)
Definition get_upcoming_birthdays (today : Date.date) (d : book)
  : result (list entry) :=
  loop today [] (values d).

(** The same function with the test on the weekday taken out. *)
Definition visit_no_weekday (today : Date.date) (birthdays : list entry)
    (user : RecordObj) : result (list entry) :=
  match birthday user with
  | Some b =>
      parsed ← Strptime.strptime (value b);
      birth_date ← Date.replace_year parsed (Date.year today);
      let difference_date := Date.days_between birth_date today in
      if (0 <=? difference_date) && (difference_date <=? 7)
      then Ok (birthdays ++ [mkEntry (value (name user))
                                     (Date.strftime birth_date)])
      else Ok birthdays
  | None => Ok birthdays
  end.

Fixpoint loop_no_weekday (today : Date.date) (birthdays : list entry)
    (users : list RecordObj) : result (list entry) :=
  match users with
  | [] => Ok birthdays
  | user :: rest =>
      birthdays' ← visit_no_weekday today birthdays user;
      loop_no_weekday today birthdays' rest
  end.

Definition get_upcoming_birthdays_no_weekday (today : Date.date) (d : book)
  : result (list entry) :=
  loop_no_weekday today [] (values d).

End AddressBook.

(** ** Vocabulary of the specification *)

(** [^[0-9]{10}$]: exactly ten ASCII decimal digits. *)
Definition is_ascii_phone (s : pystr) : bool :=
  (length s =? 10)%nat && forallb is_ascii_digit s.

(** What [Phone] checks of a string: ten characters, all of them digits
    as [str.isdigit] understands digits. *)
Definition is_isdigit_phone (s : pystr) : bool :=
  (length s =? 10)%nat && forallb isdigit_char s.

(** The ten Arabic-Indic digits, U+0661 ... U+0669, U+0660. *)
Definition arabic_indic_phone : pystr :=
  [1633; 1634; 1635; 1636; 1637; 1638; 1639; 1640; 1641; 1632].

Definition phone_error : exn :=
  ValueError [Lit "Phone number must contain 10 digits"].

Definition phone_type_error : exn :=
  AttributeError [Lit "Invalid format number. Use 10 digits"].

(** The texts that the groups of the format accept: a day of one or two
    characters, a month of one or two, a year of four. *)
Definition day_text (t : pystr) : bool :=
  match t with
  | [a] => Strptime.between 49 57 a
  | [a; b] =>
      (51 =? a) && Strptime.between 48 49 b
      || Strptime.between 49 50 a && isdecimal_char b
      || (48 =? a) && Strptime.between 49 57 b
      || (32 =? a) && Strptime.between 49 57 b
  | _ => false
  end.

Definition month_text (t : pystr) : bool :=
  match t with
  | [a] => Strptime.between 49 57 a
  | [a; b] =>
      (49 =? a) && Strptime.between 48 50 b
      || (48 =? a) && Strptime.between 49 57 b
  | _ => false
  end.

Definition year_text (t : pystr) : bool :=
  match t with
  | [a; b; c; d] =>
      isdecimal_char a && isdecimal_char b
      && isdecimal_char c && isdecimal_char d
  | _ => false
  end.

(** [DD.MM.YYYY]: two digits, a dot, two digits, a dot, four digits. *)
Definition dd_mm_yyyy (y m d : Z) : pystr :=
  Date.two_digits d ++ [46] ++ Date.two_digits m ++ [46]
  ++ Date.two_digits (y / 100) ++ Date.two_digits (y mod 100).

Definition is_dd_mm_yyyy (s : pystr) : bool :=
  match s with
  | [d1; d2; p1; m1; m2; p2; y1; y2; y3; y4] =>
      forallb is_ascii_digit [d1; d2; m1; m2; y1; y2; y3; y4]
      && (p1 =? 46) && (p2 =? 46)
  | _ => false
  end.

Definition birthday_error : exn :=
  ValueError [Lit "Invalid date format. Use DD.MM.YYYY"].

(** The birthday of a stored field moved into the year [y]: what the
    report calls the candidate date when [y] is the year of today. *)
Definition candidate_in (y : Z) (b : Field) : result Date.date :=
  parsed ← Strptime.strptime (value b);
  Date.replace_year parsed y.

Definition candidate (today : Date.date) (b : Field) : result Date.date :=
  candidate_in (Date.year today) b.

(** The entry that the specification gives a record: one when the record
    has a birthday whose candidate date is today or at most seven days
    ahead. *)
Definition due (today : Date.date) (r : RecordObj)
  : option AddressBook.entry :=
  match birthday r with
  | Some b =>
      match candidate today b with
      | Ok c =>
          let delta := Date.days_between c today in
          if (0 <=? delta) && (delta <=? 7)
          then Some (AddressBook.mkEntry (value (name r)) (Date.strftime c))
          else None
      | Raise _ => None
      end
  | None => None
  end.

(** Every stored birthday has a candidate date, as a test that computes. *)
Definition candidates_ok (today : Date.date) (users : list RecordObj) : bool :=
  forallb (fun r => match birthday r with
                    | Some b => is_ok (candidate today b)
                    | None => true
                    end) users.

Definition date_error : exn := ValueError [Lit "day is out of range for month"].

Definition valid_date (d : Date.date) : bool :=
  Date.valid (Date.year d) (Date.month d) (Date.day d).

(** ** Sample data *)

Definition s1111 : pystr := str "1111111111".
Definition s2222 : pystr := str "2222222222".

(** A record for Ann without phones, and the states after
    [add_phone("1111111111")], and after [add_phone("2222222222")] and
    then [add_phone("1111111111")]. *)
Definition st_ann : Record.state :=
  Record.mkState ∅ (mkRecord (mkField (VStr (str "Ann"))) [] None).

Definition st_one : Record.state :=
  snd (Record.add_phone (VStr s1111) st_ann).

Definition st_two : Record.state :=
  snd (Record.add_phone (VStr s1111)
         (snd (Record.add_phone (VStr s2222) st_ann))).

(** A contact with a name and a birthday, and the book that holds the
    given records, added one after the other. *)
Definition contact (n b : string) : RecordObj :=
  mkRecord (mkField (VStr (str n))) [] (Some (mkField (VStr (str b)))).

Definition book_of (rs : list RecordObj) : AddressBook.book :=
  fold_left AddressBook.add_record rs [].

(** ** Text: [str(v)], [split], [strip], [join] *)

Module Text.

(** The characters for which [str.isspace] holds; [split] without a
    separator and [strip] without an argument cut at these. *)
Definition isspace_char (c : Z) : bool :=
  in_ranges [(9,13);(28,32);(133,133);(160,160);(5760,5760);(8192,8202);
             (8232,8233);(8239,8239);(8287,8287);(12288,12288)] c.

(** [s.split()]: the maximal runs of characters that are no whitespace.
    [word] is the run that is being read. *)
Fixpoint split_from (word s : pystr) : list pystr :=
  match s with
  | [] => if bool_decide (word = []) then [] else [word]
  | c :: r =>
      if isspace_char c
      then (if bool_decide (word = []) then split_from [] r
            else word :: split_from [] r)
      else split_from (word ++ [c]) r
  end.

Definition split (s : pystr) : list pystr := split_from [] s.

Fixpoint strip_left (s : pystr) : pystr :=
  match s with
  | c :: r => if isspace_char c then strip_left r else s
  | [] => []
  end.

(** [s.strip()] *)
Definition strip (s : pystr) : pystr :=
  rev (strip_left (rev (strip_left s))).

(** [sep.join(items)] *)
Fixpoint join (sep : pystr) (items : list pystr) : pystr :=
  match items with
  | [] => []
  | [x] => x
  | x :: rest => x ++ sep ++ join sep rest
  end.

(** The decimal digits of a number that is not negative, most
    significant first; [fuel] bounds their number. *)
Fixpoint digits_of (fuel : nat) (n : Z) (acc : pystr) : pystr :=
  match fuel with
  | O => acc
  | S fuel' =>
      let acc' := (48 + n mod 10) :: acc in
      if n <? 10 then acc' else digits_of fuel' (n / 10) acc'
  end.

(** [str(n)] of an integer. *)
Definition int_str (n : Z) : pystr :=
  if n <? 0 then 45 :: digits_of (S (Z.to_nat (Z.log2 (- n)))) (- n) []
  else digits_of (S (Z.to_nat (Z.log2 n))) n [].

Definition hex_digit (n : Z) : Z := if n <? 10 then 48 + n else 87 + n.

(** [repr(b)] of a [bytes] value: double quotes are used when the value
    holds a single quote and no double quote. *)
Definition bytes_repr (b : list Z) : pystr :=
  let quote :=
    if existsb (Z.eqb 39) b && negb (existsb (Z.eqb 34) b) then 34 else 39 in
  [98; quote]
  ++ flat_map (fun c =>
       if (c =? quote) || (c =? 92) then [92; c]
       else if c =? 9 then [92; 116]
       else if c =? 10 then [92; 110]
       else if c =? 13 then [92; 114]
       else if (c <? 32) || (127 <=? c)
            then [92; 120; hex_digit (c / 16); hex_digit (c mod 16)]
       else [c]) b
  ++ [quote].

(** [str(v)], which is also what an f-string puts for [{v}]. *)
Definition py_str (v : pyval) : pystr :=
  match v with
  | VNone => str "None"
  | VInt n => int_str n
  | VStr s => s
  | VBytes b => bytes_repr b
  end.

(** [str.lower] on text in which every letter is ASCII. *)
Definition ascii_lower (s : pystr) : pystr :=
  map (fun c => if (65 <=? c) && (c <=? 90) then c + 32 else c) s.

End Text.

(** [Field.__str__] *)
Definition Field_str (f : Field) : pystr := Text.py_str (value f).

(** [str(p) for p in phones]: the texts of the [Phone] objects, in the
    order of the list.  Every reference of a record is to an object of
    the store; a reference to nothing gives no text. *)
Definition phone_strs (σ : gmap loc Field) (ps : list loc) : list pystr :=
  omap (fun l => Field_str <$> σ !! l) ps.

(** [Record.__str__] *)
Definition Record_str (σ : gmap loc Field) (r : RecordObj) : pystr :=
  str "Contact name: " ++ Field_str (name r)
  ++ str ", phone: " ++ Text.join (str "; ") (phone_strs σ (phones r))
  ++ str ", birthdate: "
  ++ match birthday r with
     | Some b => Field_str b
     | None => str "None"
     end.

(** ** The command handlers *)

Module Bot.

(** What a handler can reach: the book, its records and their [Phone]
    objects. *)
Record world : Type := mkWorld {
  objects : gmap loc Field;
  data : AddressBook.book
}.

Definition W (A : Type) : Type := world -> result A * world.

#[global] Instance W_ret : MRet W := fun A a w => (Ok a, w).
#[global] Instance W_bind : MBind W := fun A B k m w =>
  match m w with
  | (Ok a, w') => k a w'
  | (Raise e, w') => (Raise e, w')
  end.

Definition lift {A} (r : result A) : W A := fun w => (r, w).

Definition get_objects : W (gmap loc Field) := fun w => (Ok (objects w), w).

(** [book.find(name)] *)
Definition find (n : pyval) : W (option RecordObj) := fun w =>
  (Ok (AddressBook.find (data w) n), w).

(** [book.add_record(record)] *)
Definition add_record (r : RecordObj) : W unit := fun w =>
  (Ok (), mkWorld (objects w) (AddressBook.add_record (data w) r)).

(** The record under [key] takes a new state; the other entries and the
    order of the keys stay. *)
Definition replace (d : AddressBook.book) (key : pyval) (r : RecordObj)
  : AddressBook.book :=
  map (fun kv => if py_eq (fst kv) key then (fst kv, r) else kv) d.

(** A method called on [record], the object that the book holds under
    [key]: the book sees what the method does to the object. *)
Definition call {A} (key : pyval) (record : RecordObj) (m : Record.M A)
  : W A := fun w =>
  let (res, st) := m (Record.mkState (objects w) record) in
  (res, mkWorld (Record.store st) (replace (data w) key (Record.self st))).

(** The [ValueError] of [a, b = args] with too few or too many items. *)
Definition unpack_error (expected : Z) (args : list pystr) : exn :=
  if Z.of_nat (length args) <? expected
  then ValueError [Lit "not enough values to unpack (expected ";
                   StrOf (VInt expected); Lit ", got ";
                   StrOf (VInt (Z.of_nat (length args))); Lit ")"]
  else ValueError [Lit "too many values to unpack (expected ";
                   StrOf (VInt expected); Lit ")"].

Definition dq : pystr := [34].
Definition nl : pystr := [10].

(** The text that [input_error] returns for a [ValueError]. *)
Definition HELP : pystr :=
  str "Error! if you want to:" ++ nl
  ++ str "add contact: you must input (" ++ dq ++ str "add" ++ dq
  ++ str " username phone)." ++ nl
  ++ str "change phone: you must input (" ++ dq ++ str "change" ++ dq
  ++ str " username old_phone new_phone) or no contacts." ++ nl
  ++ str "get phone: you must input (" ++ dq ++ str "phone" ++ dq
  ++ str " username)" ++ nl
  ++ str "add-birthday: you must input(" ++ dq ++ str "add-birthday" ++ dq
  ++ str " username DD.MM.YYYY)" ++ nl
  ++ str "show-birthday: you must input(" ++ dq ++ str "show-birthday" ++ dq
  ++ str " username)" ++ nl.

(** [@input_error]: a [ValueError] and an [AttributeError] of the handler
    become its answer; what the handler did before it raised stays
    done.  No other kind of exception that values of these types can
    raise is caught. *)
Definition input_error (f : W pystr) : W pystr := fun w =>
  match f w with
  | (Raise (ValueError _), w') => (Ok HELP, w')
  | (Raise (AttributeError _), w') => (Ok (str "Atribute error"), w')
  | other => other
  end.

(** The handlers take the words of a command line. *)
Definition add_contact_body (args : list pystr) : W pystr :=
  match args with
  | [name; phone] =>
      found ← find (VStr name);
      rm ← match found with
           | None =>
               record ← lift (Record.init (VStr name));
               _ ← add_record record;
               mret (record, str "Contact added.")
           | Some record => mret (record, str "Contact updated.")
           end;
      _ ← (if truthy (VStr phone)
           then call (VStr name) (fst rm) (Record.add_phone (VStr phone))
           else mret ());
      mret (snd rm)
  | _ => lift (Raise (unpack_error 2 args))
  end.

Definition add_contact (args : list pystr) : W pystr :=
  input_error (add_contact_body args).

(** A [Record] object is truthy. *)
Definition change_phone_body (args : list pystr) : W pystr :=
  match args with
  | [name; old_phone; new_phone] =>
      found ← find (VStr name);
      match found with
      | Some record =>
          _ ← call (VStr name) record
                (Record.edit_phone (VStr old_phone) (VStr new_phone));
          mret (str "Phone number for '" ++ name ++ str "' changed.")
      | None => mret (str "Contact " ++ name ++ str " not found.")
      end
  | _ => lift (Raise (unpack_error 3 args))
  end.

Definition change_phone (args : list pystr) : W pystr :=
  input_error (change_phone_body args).

Definition show_all : W pystr := fun w =>
  (Ok (if bool_decide (data w = [])
       then str "No contacts available, you need to (add " ++ dq
            ++ str "username" ++ dq ++ str " " ++ dq ++ str "phone" ++ dq
            ++ str ")"
       else Text.strip
              (fold_left (fun result kv =>
                            result ++ Text.py_str (fst kv) ++ str ": "
                            ++ Record_str (objects w) (snd kv) ++ nl)
                         (data w) [])), w).

Definition get_phone_body (args : list pystr) : W pystr :=
  match args with
  | [name] =>
      found ← find (VStr name);
      σ ← get_objects;
      match found with
      | Some record =>
          mret (str "Phone number for '" ++ name ++ str "': "
                ++ Text.join (str ", ") (phone_strs σ (phones record)))
      | None => mret (str "Contact " ++ name ++ str " not found.")
      end
  | _ => lift (Raise (unpack_error 1 args))
  end.

Definition get_phone (args : list pystr) : W pystr :=
  input_error (get_phone_body args).

Definition add_birthday_body (args : list pystr) : W pystr :=
  match args with
  | [name; birthday] =>
      found ← find (VStr name);
      match found with
      | Some record =>
          _ ← call (VStr name) record (Record.add_birthday (VStr birthday));
          mret (str "Birthday added for '" ++ name ++ str "'.")
      | None => mret (str "Contact '" ++ name ++ str "' not found.")
      end
  | _ => lift (Raise (unpack_error 2 args))
  end.

Definition add_birthday (args : list pystr) : W pystr :=
  input_error (add_birthday_body args).

(** A [Birthday] object is truthy. *)
Definition show_birthday_body (args : list pystr) : W pystr :=
  match args with
  | [name] =>
      found ← find (VStr name);
      match found with
      | Some record =>
          match birthday record with
          | Some b =>
              mret (str "Birthday for '" ++ name ++ str "': " ++ Field_str b)
          | None =>
              mret (str "No birthday found for '" ++ name
                    ++ str "'. Please add a birthday using 'add-birthday' command.")
          end
      | None => mret (str "No contact found for '" ++ name ++ str "'.")
      end
  | _ => lift (Raise (unpack_error 1 args))
  end.

Definition show_birthday (args : list pystr) : W pystr :=
  input_error (show_birthday_body args).

(** [birthdays(book)], on the day [today]; no [@input_error] is on it. *)
Definition birthdays (today : Date.date) : W pystr := fun w =>
  match AddressBook.get_upcoming_birthdays today (data w) with
  | Ok upcoming_birthdays =>
      (Ok (if bool_decide (upcoming_birthdays = [])
           then str "No upcoming birthdays"
           else Text.join nl
                  (map (fun b =>
                          str "Upcoming birthday next week for '"
                          ++ Text.py_str (AddressBook.entry_name b)
                          ++ str "': " ++ AddressBook.entry_birthday b)
                       upcoming_birthdays)), w)
  | Raise e => (Raise e, w)
  end.

(** [parse_input]; [lower] is [str.lower]. *)
Definition parse_input (lower : pystr -> pystr) (user_input : pystr)
  : result (pystr * list pystr) :=
  match Text.split user_input with
  | cmd :: args => Ok (lower (Text.strip cmd), args)
  | [] => Raise (ValueError
                   [Lit "not enough values to unpack (expected at least 1, got 0)"])
  end.

(** One turn of the loop of [main] after the line is parsed: whether the
    loop is left, and the text that is printed. *)
Definition command (today : Date.date) (cmd : pystr) (args : list pystr)
  : W (bool * pystr) :=
  if bool_decide (cmd = str "close") || bool_decide (cmd = str "exit")
  then mret (true, str "Good bye!")
  else if bool_decide (cmd = str "hello")
  then mret (false, str "How can I help you?")
  else if bool_decide (cmd = str "add")
  then s ← add_contact args; mret (false, s)
  else if bool_decide (cmd = str "change")
  then s ← change_phone args; mret (false, s)
  else if bool_decide (cmd = str "phone")
  then s ← get_phone args; mret (false, s)
  else if bool_decide (cmd = str "all")
  then s ← show_all; mret (false, s)
  else if bool_decide (cmd = str "add-birthday")
  then s ← add_birthday args; mret (false, s)
  else if bool_decide (cmd = str "show-birthday")
  then s ← show_birthday args; mret (false, s)
  else if bool_decide (cmd = str "birthdays")
  then s ← birthdays today; mret (false, s)
  else mret (false, str "Invalid command.").

(** How a session ends: the loop is left and [save_data] runs; an
    exception leaves [main] and nothing is saved; or [input] finds no
    more lines, which is an exception too. *)
Inductive outcome : Type :=
| Saved (w : world)
| Uncaught (e : exn) (w : world)
| EndOfInput (w : world).

(** The loop of [main] over the lines that [input] returns, on one day:
    the texts that [print] wrote and the way the session ended. *)
Fixpoint loop (lower : pystr -> pystr) (today : Date.date)
    (lines : list pystr) (w : world) (printed : list pystr)
  : list pystr * outcome :=
  match lines with
  | [] => (printed, EndOfInput w)
  | user_input :: rest =>
      match parse_input lower user_input with
      | Raise e => (printed, Uncaught e w)
      | Ok (cmd, args) =>
          match command today cmd args w with
          | (Raise e, w') => (printed, Uncaught e w')
          | (Ok (true, s), w') => (printed ++ [s], Saved w')
          | (Ok (false, s), w') => loop lower today rest w' (printed ++ [s])
          end
      end
  end.

(** [main], from the book that [load_data] returned. *)
Definition main (lower : pystr -> pystr) (today : Date.date)
    (loaded : world) (lines : list pystr) : list pystr * outcome :=
  loop lower today lines loaded [str "Welcome to the assistant bot!"].

End Bot.

(** The bot before any contact, and after [add Ann 1111111111]. *)
Definition w_empty : Bot.world := Bot.mkWorld ∅ [].

Definition w_ann : Bot.world :=
  snd (Bot.add_contact [str "Ann"; s1111] w_empty).

(** The bot after [add Bob 2222222222] and [add-birthday Bob 29.02.2000]
    as well. *)
Definition w_bob : Bot.world :=
  snd (Bot.add_birthday [str "Bob"; str "29.02.2000"]
         (snd (Bot.add_contact [str "Bob"; s2222] w_ann))).

(** * Properties *)

(** ** Values and results *)

Lemma py_eq_true a b : py_eq a b = true <-> a = b.
Proof. unfold py_eq. apply bool_decide_eq_true. Qed.

Lemma py_eq_false a b : py_eq a b = false <-> a <> b.
Proof. unfold py_eq. apply bool_decide_eq_false. Qed.

Lemma py_eq_refl a : py_eq a a = true.
Proof. apply py_eq_true. reflexivity. Qed.

Lemma result_bind_eq {A B} (r : result A) (k : A -> result B) :
  (r ≫= k) = match r with Ok a => k a | Raise e => Raise e end.
Proof. reflexivity. Qed.

(** ** Phone *)

Lemma ascii_digit_isdigit c : is_ascii_digit c = true -> isdigit_char c = true.
Proof.
  unfold is_ascii_digit. intros H.
  unfold isdigit_char, isdecimal_char, decimal_ranges, in_ranges.
  cbn [existsb fst snd]. rewrite H. reflexivity.
Qed.

Lemma ascii_phone_isdigit_phone s :
  is_ascii_phone s = true -> is_isdigit_phone s = true.
Proof.
  unfold is_ascii_phone, is_isdigit_phone.
  intros H. apply andb_true_iff in H as [Hl Hd].
  rewrite Hl. cbn [andb].
  rewrite forallb_forall in *. intros c Hc.
  apply ascii_digit_isdigit, Hd, Hc.
Qed.

Lemma length_10_not_nil (l : pystr) :
  (length l =? 10)%nat = true -> bool_decide (l = []) = false.
Proof. destruct l; [discriminate | reflexivity]. Qed.

Lemma of_nat_eqb_10 (n : nat) : (Z.of_nat n =? 10) = (n =? 10)%nat.
Proof.
  destruct (Nat.eqb_spec n 10) as [->|Hn]; [reflexivity|].
  apply Z.eqb_neq. lia.
Qed.

Lemma Phone_str s :
  Phone (VStr s)
  = if is_isdigit_phone s then Ok (mkField (VStr s)) else Raise phone_error.
Proof.
  unfold Phone, is_isdigit_phone, isdigit, str_isdigit, len, phone_error.
  cbn [mbind result_bind bind try_except].
  destruct (forallb isdigit_char s) eqn:Hd.
  - rewrite andb_true_r.
    destruct (bool_decide (s = [])) eqn:Hs.
    + apply bool_decide_eq_true in Hs. subst s. reflexivity.
    + cbn. rewrite of_nat_eqb_10.
      destruct (length s =? 10)%nat; reflexivity.
  - rewrite !andb_false_r. reflexivity.
Qed.

(** A [bytes] value has [isdigit] and [len], and is checked like a
    string. *)
Lemma Phone_bytes b :
  Phone (VBytes b)
  = if is_ascii_phone b then Ok (mkField (VBytes b)) else Raise phone_error.
Proof.
  unfold Phone, is_ascii_phone, isdigit, bytes_isdigit, len, phone_error.
  cbn [mbind result_bind bind try_except].
  destruct (forallb is_ascii_digit b) eqn:Hd.
  - rewrite andb_true_r.
    destruct (bool_decide (b = [])) eqn:Hs.
    + apply bool_decide_eq_true in Hs. subst b. reflexivity.
    + cbn. rewrite of_nat_eqb_10.
      destruct (length b =? 10)%nat; reflexivity.
  - rewrite !andb_false_r. reflexivity.
Qed.

(** C2, as the code has it.  A string is accepted, and kept as the
    value, exactly when it has ten characters that are all digits for
    [str.isdigit]; ten ASCII digits are such a string; every other string
    raises the [ValueError] of the validation.  [None] and integers have
    no [isdigit] and raise an [AttributeError], another kind of
    failure. *)
Theorem Phone_validation :
  (forall s, Phone (VStr s)
             = if is_isdigit_phone s then Ok (mkField (VStr s))
               else Raise phone_error)
  /\ (forall s, is_ascii_phone s = true -> is_isdigit_phone s = true)
  /\ Phone VNone = Raise phone_type_error
  /\ (forall n, Phone (VInt n) = Raise phone_type_error)
  /\ phone_type_error <> phone_error.
Proof.
  split; [exact Phone_str|].
  split; [exact ascii_phone_isdigit_phone|].
  split; [reflexivity|].
  split; [reflexivity|].
  discriminate.
Qed.

(** Ten ASCII digits are accepted. *)
Lemma Phone_validation_witness :
  Phone (VStr (str "0501234567")) = Ok (mkField (VStr (str "0501234567"))).
Proof.
  destruct Phone_validation as (Hstr & Hascii & _).
  rewrite Hstr, (Hascii (str "0501234567") eq_refl). reflexivity.
Defined.

(** C2 fails as stated: ten Arabic-Indic digits are no ASCII digits and
    are accepted, and a [bytes] value of ten digits, which is no string,
    is accepted too. *)
Lemma Phone_accepts_more :
  is_ascii_phone arabic_indic_phone = false
  /\ Phone (VStr arabic_indic_phone) = Ok (mkField (VStr arabic_indic_phone))
  /\ Phone (VBytes (str "0501234567"))
     = Ok (mkField (VBytes (str "0501234567"))).
Proof. repeat split; reflexivity. Qed.

(** ** Records *)

Import Record.

Lemma M_bind_eq {A B} (m : M A) (k : A -> M B) st :
  (m ≫= k) st
  = match m st with
    | (Ok a, st') => k a st'
    | (Raise e, st') => (Raise e, st')
    end.
Proof. reflexivity. Qed.

Lemma find_phone_eq phone st :
  find_phone phone st
  = (Ok (List.find (value_is (store st) phone) (phones (self st))), st).
Proof. reflexivity. Qed.

Lemma find_phone_inv phone st o :
  find_phone phone st = (Ok o, st) ->
  List.find (value_is (store st) phone) (phones (self st)) = o.
Proof. rewrite find_phone_eq. congruence. Qed.

Lemma edit_phone_not_found old new st :
  find_phone old st = (Ok None, st) ->
  edit_phone old new st = (Raise (ValueError [Lit "Phone number not found."]), st).
Proof.
  intros H. unfold edit_phone.
  rewrite M_bind_eq, H. reflexivity.
Qed.

Lemma edit_phone_found_valid old new st l :
  find_phone old st = (Ok (Some l), st) ->
  is_isdigit_phone new = true ->
  edit_phone old (VStr new) st
  = (Ok (), mkState (<[l := mkField (VStr new)]> (store st)) (self st)).
Proof.
  intros H Hv. unfold edit_phone.
  rewrite M_bind_eq, H.
  unfold is_isdigit_phone in Hv. apply andb_true_iff in Hv as [Hl Hd].
  unfold pure, isdigit, str_isdigit, len.
  rewrite Hd, (length_10_not_nil _ Hl). cbn.
  rewrite of_nat_eqb_10, Hl. reflexivity.
Qed.

Lemma edit_phone_found_invalid old new st l :
  find_phone old st = (Ok (Some l), st) ->
  is_isdigit_phone new = false ->
  edit_phone old (VStr new) st
  = (Raise (ValueError [Lit "New phone number must contain 10 digits"]), st).
Proof.
  intros H Hv. unfold edit_phone.
  rewrite M_bind_eq, H.
  unfold is_isdigit_phone in Hv.
  unfold pure, isdigit, str_isdigit, len.
  destruct (forallb isdigit_char new) eqn:Hd.
  - rewrite andb_true_r in *.
    destruct (bool_decide (new = [])) eqn:Hs; [reflexivity|].
    cbn. rewrite of_nat_eqb_10, Hv. reflexivity.
  - rewrite andb_false_r. reflexivity.
Qed.

Lemma value_is_insert σ l v x :
  value_is (<[l := mkField v]> σ) v x = bool_decide (x = l) || value_is σ v x.
Proof.
  unfold value_is. destruct (decide (x = l)) as [->|Hne].
  - rewrite lookup_insert_eq, bool_decide_eq_true_2 by reflexivity.
    cbn. apply py_eq_refl.
  - rewrite lookup_insert_ne, bool_decide_eq_false_2 by congruence.
    reflexivity.
Qed.

Lemma value_is_lookup σ v x :
  value_is σ v x = true -> σ !! x = Some (mkField v).
Proof.
  unfold value_is. destruct (σ !! x) as [[w]|]; [|discriminate].
  cbn. intros H. apply py_eq_true in H. congruence.
Qed.

(** After a slot has taken the value [v], looking [v] up finds a slot
    that holds [v]: the slot itself, when no slot held [v] before. *)
Lemma find_after_edit σ ps l v :
  In l ps ->
  exists l', List.find (value_is (<[l := mkField v]> σ) v) ps = Some l'
             /\ <[l := mkField v]> σ !! l' = Some (mkField v)
             /\ (List.find (value_is σ v) ps = None -> l' = l).
Proof.
  intros Hin.
  destruct (List.find (value_is (<[l := mkField v]> σ) v) ps) as [l'|] eqn:Hf.
  - exists l'. split; [reflexivity|].
    apply find_some in Hf as [Hin' Hv].
    split; [apply value_is_lookup, Hv|].
    intros Hnone. rewrite value_is_insert in Hv.
    rewrite (find_none _ _ Hnone _ Hin'), orb_false_r in Hv.
    apply bool_decide_eq_true in Hv. exact Hv.
  - exfalso. pose proof (find_none _ _ Hf _ Hin) as Hv.
    rewrite value_is_insert, bool_decide_eq_true_2 in Hv by reflexivity.
    discriminate.
Qed.

(** C6, as the code has it.  Without a slot that holds the old value the
    call raises the not-found [ValueError].  With such a slot, and a new
    value of ten [str.isdigit] digits, the first such slot takes the new
    value where it is: the record keeps the same slots in the same
    places, the store changes at that slot only, and looking the new
    value up afterwards finds a slot that holds it, which is the edited
    slot when no slot held the new value before.  With such a slot and
    any other new string the call raises the validation [ValueError].  A
    failing call leaves the state as it was. *)
Theorem edit_phone_cases (st : state) (old new : pystr) :
  (find_phone (VStr old) st = (Ok None, st) ->
   edit_phone (VStr old) (VStr new) st
   = (Raise (ValueError [Lit "Phone number not found."]), st))
  /\ (forall l,
       find_phone (VStr old) st = (Ok (Some l), st) ->
       is_isdigit_phone new = true ->
       exists st',
         edit_phone (VStr old) (VStr new) st = (Ok (), st')
         /\ self st' = self st
         /\ store st' = <[l := mkField (VStr new)]> (store st)
         /\ exists l',
             find_phone (VStr new) st' = (Ok (Some l'), st')
             /\ store st' !! l' = Some (mkField (VStr new))
             /\ (find_phone (VStr new) st = (Ok None, st) -> l' = l))
  /\ (forall l,
       find_phone (VStr old) st = (Ok (Some l), st) ->
       is_isdigit_phone new = false ->
       edit_phone (VStr old) (VStr new) st
       = (Raise (ValueError [Lit "New phone number must contain 10 digits"]),
          st))
  /\ (is_ascii_phone new = true -> is_isdigit_phone new = true).
Proof.
  split; [apply edit_phone_not_found|].
  split; [|split; [intros l; apply edit_phone_found_invalid
                  |apply ascii_phone_isdigit_phone]].
  intros l Hfound Hvalid.
  eexists. split; [apply (edit_phone_found_valid _ _ _ _ Hfound Hvalid)|].
  split; [reflexivity|]. split; [reflexivity|].
  apply find_phone_inv, find_some in Hfound as [Hin _].
  destruct (find_after_edit (store st) (phones (self st)) l (VStr new) Hin)
    as (l' & Hf & Hl & Hsame).
  exists l'. rewrite find_phone_eq. cbn [store self].
  rewrite Hf. split; [reflexivity|]. split; [exact Hl|].
  intros Hnone. apply Hsame, (find_phone_inv _ _ _ Hnone).
Qed.

(** The record with the phone 1111111111: the edit to 2222222222 is
    done and found, the edit of 9999999999 is not found. *)
Lemma edit_phone_cases_witness :
  (exists st', edit_phone (VStr s1111) (VStr s2222) st_one = (Ok (), st')
               /\ exists l', find_phone (VStr s2222) st' = (Ok (Some l'), st'))
  /\ edit_phone (VStr (str "9999999999")) (VStr s2222) st_one
     = (Raise (ValueError [Lit "Phone number not found."]), st_one)
  /\ edit_phone (VStr s1111) (VStr (str "12345")) st_one
     = (Raise (ValueError [Lit "New phone number must contain 10 digits"]),
        st_one).
Proof.
  destruct (edit_phone_cases st_one s1111 s2222) as (_ & Hok & _ & _).
  destruct (Hok 1%positive eq_refl eq_refl) as (st' & He & _ & _ & l' & Hf & _).
  split; [exists st'; split; [exact He | exists l'; exact Hf]|].
  destruct (edit_phone_cases st_one (str "9999999999") s2222) as (Hnf & _).
  split; [exact (Hnf eq_refl)|].
  destruct (edit_phone_cases st_one s1111 (str "12345")) as (_ & _ & Hbad & _).
  exact (Hbad 1%positive eq_refl eq_refl).
Defined.

(** C6 fails as stated in two places.  When an earlier slot holds the new
    value already, the lookup after the edit returns that slot and not
    the edited one; and ten Arabic-Indic digits, which are no ten ASCII
    digits, are taken as the new value. *)
Lemma edit_phone_finds_other_slot :
  find_phone (VStr s1111) st_two = (Ok (Some 2%positive), st_two)
  /\ (exists st',
        edit_phone (VStr s1111) (VStr s2222) st_two = (Ok (), st')
        /\ find_phone (VStr s2222) st' = (Ok (Some 1%positive), st'))
  /\ is_ascii_phone arabic_indic_phone = false
  /\ (exists st',
        edit_phone (VStr s1111) (VStr arabic_indic_phone) st_one = (Ok (), st')
        /\ store st' !! 1%positive = Some (mkField (VStr arabic_indic_phone))).
Proof.
  split; [reflexivity|].
  split; [eexists; split; reflexivity|].
  split; [reflexivity|].
  eexists; split; reflexivity.
Qed.

(** C8.  A value that its validator rejects makes the operation raise
    the validator's exception and leaves the record and the [Phone]
    objects as they were; [Record(name)] raises what [Name] raises and
    builds nothing; and [edit_phone] leaves the state as it was whenever
    it raises. *)
Theorem validation_failure_keeps_state (st : state) :
  (forall v e, Phone v = Raise e -> add_phone v st = (Raise e, st))
  /\ (forall v e, Birthday v = Raise e -> add_birthday v st = (Raise e, st))
  /\ (forall old new e,
        fst (edit_phone old new st) = Raise e ->
        snd (edit_phone old new st) = st)
  /\ (forall v e, Name v = Raise e -> init v = Raise e).
Proof.
  split; [|split; [|split]].
  - intros v e H. unfold add_phone. rewrite M_bind_eq. unfold pure.
    rewrite H. reflexivity.
  - intros v e H. unfold add_birthday. rewrite M_bind_eq. unfold pure.
    rewrite H. reflexivity.
  - intros old new e. unfold edit_phone. rewrite M_bind_eq, find_phone_eq.
    destruct (List.find _ _) as [l|]; [|reflexivity].
    rewrite M_bind_eq. unfold pure.
    destruct (isdigit new) as [d|e']; [|reflexivity].
    rewrite M_bind_eq.
    destruct (negb d); [reflexivity|].
    destruct (len new) as [n|e']; [|reflexivity].
    cbn [mbind result_bind bind].
    destruct (negb (n =? 10)); [reflexivity | discriminate].
  - intros v e H. unfold init. rewrite H. reflexivity.
Qed.

(** A phone of five digits and the thirty-first of April are turned
    down, and Ann's record stays as it is. *)
Lemma validation_failure_keeps_state_witness :
  add_phone (VStr (str "12345")) st_one = (Raise phone_error, st_one)
  /\ add_birthday (VStr (str "31.04.2020")) st_one
     = (Raise (ValueError [Lit "Invalid date format. Use DD.MM.YYYY"]), st_one)
  /\ snd (edit_phone (VStr s1111) (VStr (str "12345")) st_one) = st_one
  /\ init (VStr []) = Raise (ValueError [Lit "Name cannot be empty"]).
Proof.
  destruct (validation_failure_keeps_state st_one) as (Hp & Hb & He & Hn).
  split; [apply Hp; reflexivity|].
  split; [apply Hb; reflexivity|].
  split; [apply (He _ _ (ValueError
                   [Lit "New phone number must contain 10 digits"]));
          reflexivity|].
  apply Hn. reflexivity.
Defined.

(** ** The address book as a dictionary *)

Import AddressBook.

Lemma contains_keys d k : contains d k = true <-> k ∈ keys d.
Proof.
  unfold contains, keys. induction d as [|[k' v'] d IH]; cbn.
  - split; [discriminate | intros H; inversion H].
  - rewrite orb_true_iff, IH, py_eq_true, elem_of_cons.
    split; intros [H|H]; auto.
Qed.

Lemma contains_false_keys d k : contains d k = false <-> k ∉ keys d.
Proof.
  rewrite <- contains_keys. destruct (contains d k); split; congruence.
Qed.

Lemma get_absent d k : contains d k = false -> get d k = None.
Proof.
  unfold contains, get. induction d as [|[k' v'] d IH]; cbn; [reflexivity|].
  intros H. apply orb_false_iff in H as [H1 H2].
  rewrite H1. apply IH, H2.
Qed.

Lemma get_app_absent d d' k :
  contains d k = false -> get (d ++ d') k = get d' k.
Proof.
  unfold contains, get. induction d as [|[k' v'] d IH]; cbn; [reflexivity|].
  intros H. apply orb_false_iff in H as [H1 H2].
  rewrite H1. apply IH, H2.
Qed.

Lemma get_setitem_eq d k v : get (setitem d k v) k = Some v.
Proof.
  unfold setitem. destruct (contains d k) eqn:Hc.
  - unfold contains, get in *.
    induction d as [|[k' v'] d IH]; cbn in *; [discriminate|].
    destruct (py_eq k' k) eqn:Hk; cbn.
    + rewrite Hk. reflexivity.
    + rewrite Hk. apply IH, Hc.
  - rewrite (get_app_absent _ _ _ Hc). unfold get. cbn.
    rewrite py_eq_refl. reflexivity.
Qed.

Lemma get_setitem_ne d k v k' :
  k' <> k -> get (setitem d k v) k' = get d k'.
Proof.
  intros Hne. unfold setitem. destruct (contains d k).
  - unfold get. induction d as [|[k0 v0] d IH]; cbn; [reflexivity|].
    destruct (py_eq k0 k) eqn:Hk; cbn.
    + apply py_eq_true in Hk. subst k0.
      assert (py_eq k k' = false) as -> by (apply py_eq_false; congruence).
      exact IH.
    + destruct (py_eq k0 k'); [reflexivity | exact IH].
  - unfold get. induction d as [|[k0 v0] d IH]; cbn.
    + assert (py_eq k k' = false) as -> by (apply py_eq_false; congruence).
      reflexivity.
    + destruct (py_eq k0 k'); [reflexivity | exact IH].
Qed.

(** Insertion order: a present key keeps its place, a new key is last. *)
Lemma keys_setitem d k v :
  keys (setitem d k v) = if contains d k then keys d else keys d ++ [k].
Proof.
  unfold setitem, keys. destruct (contains d k).
  - induction d as [|[k0 v0] d IH]; cbn; [reflexivity|].
    rewrite IH. destruct (py_eq k0 k); reflexivity.
  - rewrite map_app. reflexivity.
Qed.

Lemma NoDup_keys_setitem d k v : NoDup (keys d) -> NoDup (keys (setitem d k v)).
Proof.
  intros Hnd. rewrite keys_setitem. destruct (contains d k) eqn:Hc; [exact Hnd|].
  apply contains_false_keys in Hc.
  apply NoDup_app. split; [exact Hnd|]. split.
  - intros x Hx Hx'. apply list_elem_of_singleton in Hx'. subst x. contradiction.
  - apply NoDup_singleton.
Qed.

(** C9.  After [add_record] the name of the record maps to the record
    as it was given; every other name maps to what it mapped to before;
    and no name is a key twice when none was. *)
Theorem add_record_overwrites (d : book) (r : RecordObj) :
  find (add_record d r) (value (name r)) = Some r
  /\ (forall n, n <> value (name r) -> find (add_record d r) n = find d n)
  /\ (NoDup (keys d) -> NoDup (keys (add_record d r))).
Proof.
  unfold find, add_record. split; [apply get_setitem_eq|].
  split; [intros n Hn; apply get_setitem_ne, Hn | apply NoDup_keys_setitem].
Qed.

(** Adding Bob to the book with Ann only leaves Ann where she was. *)
Lemma add_record_overwrites_witness :
  find (add_record (book_of [contact "Ann" "12.06.1990"])
                   (contact "Bob" "01.01.1990")) (VStr (str "Ann"))
  = Some (contact "Ann" "12.06.1990")
  /\ NoDup (keys (add_record (book_of [contact "Ann" "12.06.1990"])
                             (contact "Bob" "01.01.1990"))).
Proof.
  destruct (add_record_overwrites (book_of [contact "Ann" "12.06.1990"])
              (contact "Bob" "01.01.1990")) as (_ & Hother & Hnodup).
  split.
  - rewrite Hother by discriminate. reflexivity.
  - apply Hnodup. apply NoDup_singleton.
Defined.

(** C7.  Deleting a name that is no key raises the not-found
    [ValueError] and hands the book back as it was. *)
Theorem delete_absent (d : book) (n : pyval) :
  n ∉ keys d ->
  delete d n
  = (Raise (ValueError [Lit "Record with name '"; StrOf n;
                        Lit "' not found in the address book."]), d).
Proof.
  intros Hn. apply contains_false_keys in Hn.
  unfold delete. rewrite Hn. reflexivity.
Qed.

(** Deleting Bob from the book with Ann only. *)
Lemma delete_absent_witness :
  delete (book_of [contact "Ann" "12.06.1990"]) (VStr (str "Bob"))
  = (Raise (ValueError [Lit "Record with name '"; StrOf (VStr (str "Bob"));
                        Lit "' not found in the address book."]),
     book_of [contact "Ann" "12.06.1990"]).
Proof.
  apply delete_absent. intros H.
  apply list_elem_of_singleton in H. discriminate H.
Defined.

(** ** Dates *)

Lemma new_ok y m d dt :
  Date.new y m d = Ok dt -> dt = Date.mkDate y m d /\ Date.valid y m d = true.
Proof.
  unfold Date.new, Date.valid.
  destruct ((Date.MINYEAR <=? y) && (y <=? Date.MAXYEAR)); [|discriminate].
  destruct ((1 <=? m) && (m <=? 12)) eqn:Hm; [|discriminate].
  destruct ((1 <=? d) && (d <=? Date.days_in_month y m)) eqn:Hd; [|discriminate].
  cbn. intros [= <-]. split; [reflexivity|].
  apply andb_true_iff in Hm as [-> ->].
  apply andb_true_iff in Hd as [-> ->]. reflexivity.
Qed.

Lemma new_valid y m d :
  Date.valid y m d = true -> Date.new y m d = Ok (Date.mkDate y m d).
Proof.
  unfold Date.new, Date.valid. intros H.
  repeat (apply andb_true_iff in H as [H ?]).
  repeat match goal with Hb : _ = true |- _ => rewrite Hb; clear Hb end.
  reflexivity.
Qed.

(** With the year, the month and a day from one on in range, a date can
    only fail on the length of the month. *)
Lemma new_cases y m d :
  Date.MINYEAR <= y <= Date.MAXYEAR -> 1 <= m <= 12 -> 1 <= d ->
  Date.new y m d
  = if d <=? Date.days_in_month y m then Ok (Date.mkDate y m d)
    else Raise date_error.
Proof.
  intros Hy Hm Hd. unfold Date.new.
  assert ((Date.MINYEAR <=? y) && (y <=? Date.MAXYEAR) = true) as ->
    by (apply andb_true_iff; split; apply Z.leb_le; lia).
  assert ((1 <=? m) && (m <=? 12) = true) as ->
    by (apply andb_true_iff; split; apply Z.leb_le; lia).
  assert ((1 <=? d) = true) as -> by (apply Z.leb_le; lia).
  cbn. destruct (d <=? Date.days_in_month y m); reflexivity.
Qed.

Lemma valid_bounds y m d :
  Date.valid y m d = true ->
  Date.MINYEAR <= y <= Date.MAXYEAR /\ 1 <= m <= 12
  /\ 1 <= d <= Date.days_in_month y m.
Proof.
  unfold Date.valid. intros H.
  repeat (apply andb_true_iff in H as [H ?]).
  repeat match goal with Hb : (_ <=? _) = true |- _ => apply Z.leb_le in Hb end.
  lia.
Qed.

Lemma strptime_valid v dt :
  Strptime.strptime v = Ok dt -> valid_date dt = true.
Proof.
  unfold Strptime.strptime. destruct v as [| |s|]; try discriminate.
  destruct (Strptime.format_regex_match s) as [[[[d m] y] rest]|];
    [|discriminate].
  destruct (negb _); [discriminate|].
  intros H. apply new_ok in H as [-> H]. exact H.
Qed.

(** A year has 365 days, and one more when it is a leap year. *)
Lemma days_before_next_year y :
  Date.days_before_year (y + 1)
  = Date.days_before_year y + 365 + (if Date.is_leap y then 1 else 0).
Proof.
  unfold Date.days_before_year, Date.is_leap.
  replace (y + 1 - 1) with y by lia.
  destruct (Z.eqb_spec (y mod 4) 0), (Z.eqb_spec (y mod 100) 0),
    (Z.eqb_spec (y mod 400) 0); cbn [negb andb orb];
    Z.div_mod_to_equations; lia.
Qed.

Lemma days_before_month_step y m :
  Date.days_before_month (y + 1) m - Date.days_before_month y m
  = if 2 <? m
    then (if Date.is_leap (y + 1) then 1 else 0)
         - (if Date.is_leap y then 1 else 0)
    else 0.
Proof.
  unfold Date.days_before_month.
  destruct (2 <? m); cbn [andb]; lia.
Qed.

(** The same day and month a year later is at least 365 days later. *)
Lemma ymd2ord_next_year y m d :
  Date.ymd2ord y m d + 365 <= Date.ymd2ord (y + 1) m d.
Proof.
  unfold Date.ymd2ord.
  pose proof (days_before_next_year y) as Hy.
  pose proof (days_before_month_step y m) as Hm.
  destruct (2 <? m), (Date.is_leap y), (Date.is_leap (y + 1)); lia.
Qed.

(** ** Birthday *)

Import Strptime.

Lemma one_spec p s t r :
  (t, r) ∈ one p s <-> exists a, s = a :: r /\ t = [a] /\ p a = true.
Proof.
  unfold one. destruct s as [|a s'].
  - split; [intros H; inversion H | intros (a & H & _); discriminate].
  - destruct (p a) eqn:Hp.
    + rewrite list_elem_of_singleton. split.
      * intros [= -> ->]. exists a. auto.
      * intros (a' & [= -> ->] & -> & _). reflexivity.
    + split; [intros H; inversion H|].
      intros (a' & [= -> ->] & _ & Hp'). congruence.
Qed.

Lemma two_spec p q s t r :
  (t, r) ∈ two p q s <->
  exists a b, s = a :: b :: r /\ t = [a; b] /\ p a = true /\ q b = true.
Proof.
  unfold two. destruct s as [|a [|b s']].
  - split; [intros H; inversion H | intros (a & b & H & _); discriminate].
  - split; [intros H; inversion H | intros (a' & b & H & _); discriminate].
  - destruct (p a && q b) eqn:Hpq.
    + apply andb_true_iff in Hpq as [Hp Hq].
      rewrite list_elem_of_singleton. split.
      * intros [= -> ->]. exists a, b. auto.
      * intros (a' & b' & [= -> -> ->] & -> & _). reflexivity.
    + split; [intros H; inversion H|].
      intros (a' & b' & [= -> -> ->] & _ & Hp & Hq).
      rewrite Hp, Hq in Hpq. discriminate.
Qed.

Lemma lit_spec c s r : r ∈ lit c s <-> s = c :: r.
Proof.
  unfold lit. destruct s as [|a s'].
  - split; [intros H; inversion H | discriminate].
  - destruct (Z.eqb_spec a c) as [->|Hne].
    + rewrite list_elem_of_singleton. split; congruence.
    + split; [intros H; inversion H | congruence].
Qed.

Lemma re_d_spec s t r : (t, r) ∈ re_d s <-> s = t ++ r /\ day_text t = true.
Proof.
  unfold re_d. rewrite !elem_of_app, !two_spec, one_spec. split.
  - intros [H|[H|[H|[H|H]]]];
      [destruct H as (a & b & -> & -> & Hp & Hq)
      |destruct H as (a & b & -> & -> & Hp & Hq)
      |destruct H as (a & b & -> & -> & Hp & Hq)
      |destruct H as (a & -> & -> & Hp)
      |destruct H as (a & b & -> & -> & Hp & Hq)];
      (split; [reflexivity|]); cbn [day_text]; try exact Hp;
      rewrite Hp, Hq; cbn [andb orb]; rewrite ?orb_true_r; reflexivity.
  - intros [-> Ht]. destruct t as [|a [|b [|]]]; try discriminate Ht.
    + right. right. right. left. exists a. auto.
    + cbn [day_text] in Ht.
      repeat (apply orb_true_iff in Ht as [Ht|Ht]);
        apply andb_true_iff in Ht as [Hp Hq].
      * left. exists a, b. auto.
      * right. left. exists a, b. auto.
      * right. right. left. exists a, b. auto.
      * right. right. right. right. exists a, b. auto.
Qed.

Lemma re_m_spec s t r : (t, r) ∈ re_m s <-> s = t ++ r /\ month_text t = true.
Proof.
  unfold re_m. rewrite !elem_of_app, !two_spec, one_spec. split.
  - intros [H|[H|H]];
      [destruct H as (a & b & -> & -> & Hp & Hq)
      |destruct H as (a & b & -> & -> & Hp & Hq)
      |destruct H as (a & -> & -> & Hp)];
      (split; [reflexivity|]); cbn [month_text]; try exact Hp;
      rewrite Hp, Hq; cbn [andb orb]; rewrite ?orb_true_r; reflexivity.
  - intros [-> Ht]. destruct t as [|a [|b [|]]]; try discriminate Ht.
    + right. right. exists a. auto.
    + cbn [month_text] in Ht.
      apply orb_true_iff in Ht as [Ht|Ht];
        apply andb_true_iff in Ht as [Hp Hq].
      * left. exists a, b. auto.
      * right. left. exists a, b. auto.
Qed.

Lemma re_Y_spec s t r : (t, r) ∈ re_Y s <-> s = t ++ r /\ year_text t = true.
Proof.
  unfold re_Y. split.
  - destruct s as [|a [|b [|c [|d s']]]]; try (intros H; inversion H; fail).
    destruct (_ && _) eqn:Hy; [|intros H; inversion H].
    rewrite list_elem_of_singleton. intros [= -> ->]. auto.
  - intros [-> Ht]. destruct t as [|a [|b [|c [|d [|]]]]]; try discriminate Ht.
    cbn [year_text] in Ht. cbn [app]. rewrite Ht. left.
Qed.

(** A match is a way to cut the string into day, dot, month, dot, year
    and a rest. *)
Lemma matches_spec s d m y rest :
  (d, m, y, rest) ∈ matches s <->
  s = d ++ 46 :: m ++ 46 :: y ++ rest
  /\ day_text d = true /\ month_text m = true /\ year_text y = true.
Proof.
  unfold matches. split.
  - intros H.
    apply list_elem_of_bind in H as ([d0 r0] & H & Hd).
    apply list_elem_of_bind in H as (r1 & H & Hr1).
    apply list_elem_of_bind in H as ([m0 r2] & H & Hm).
    apply list_elem_of_bind in H as (r3 & H & Hr3).
    apply list_elem_of_bind in H as ([y0 r4] & H & Hy).
    apply list_elem_of_singleton in H. cbn [fst snd] in *.
    injection H as -> -> -> ->.
    apply re_d_spec in Hd as [-> Hd]. apply lit_spec in Hr1 as ->.
    apply re_m_spec in Hm as [-> Hm]. apply lit_spec in Hr3 as ->.
    apply re_Y_spec in Hy as [-> Hy]. auto.
  - intros (-> & Hd & Hm & Hy).
    apply list_elem_of_bind. exists (d, 46 :: m ++ 46 :: y ++ rest).
    split; [|apply re_d_spec; auto].
    apply list_elem_of_bind. exists (m ++ 46 :: y ++ rest).
    split; [|apply lit_spec; reflexivity].
    apply list_elem_of_bind. exists (m, 46 :: y ++ rest).
    split; [|apply re_m_spec; auto].
    apply list_elem_of_bind. exists (y ++ rest).
    split; [|apply lit_spec; reflexivity].
    apply list_elem_of_bind. exists (y, rest).
    split; [|apply re_Y_spec; auto].
    apply list_elem_of_singleton. reflexivity.
Qed.

Lemma no_dot_split (t t' r r' : pystr) :
  46 ∉ t -> 46 ∉ t' -> t ++ 46 :: r = t' ++ 46 :: r' -> t = t' /\ r = r'.
Proof.
  revert t'. induction t as [|a t IH]; intros [|a' t'] Ht Ht' H; cbn in H.
  - injection H as ->. auto.
  - injection H as <- _. exfalso. apply Ht'. left.
  - injection H as -> _. exfalso. apply Ht. left.
  - injection H as -> H.
    destruct (IH t') as [-> ->]; [| |exact H|auto].
    + intros Hin. apply Ht. right. exact Hin.
    + intros Hin. apply Ht'. right. exact Hin.
Qed.

Lemma between_bounds lo hi c : between lo hi c = true <-> lo <= c <= hi.
Proof.
  unfold between. rewrite andb_true_iff, !Z.leb_le. reflexivity.
Qed.

Lemma dot_not_decimal c : isdecimal_char c = true -> c <> 46.
Proof. intros H ->. discriminate H. Qed.

Lemma day_text_no_dot t : day_text t = true -> 46 ∉ t.
Proof.
  destruct t as [|a [|b [|]]]; try discriminate; cbn [day_text]; intros Ht Hin.
  - apply list_elem_of_singleton in Hin. subst a. discriminate Ht.
  - apply elem_of_cons in Hin as [<-|Hin].
    + discriminate Ht.
    + apply list_elem_of_singleton in Hin. subst b.
      rewrite !andb_false_r in Ht. discriminate Ht.
Qed.

Lemma month_text_no_dot t : month_text t = true -> 46 ∉ t.
Proof.
  destruct t as [|a [|b [|]]]; try discriminate; cbn [month_text]; intros Ht Hin.
  - apply list_elem_of_singleton in Hin. subst a. discriminate Ht.
  - apply elem_of_cons in Hin as [<-|Hin].
    + discriminate Ht.
    + apply list_elem_of_singleton in Hin. subst b.
      rewrite !andb_false_r in Ht. discriminate Ht.
Qed.

Lemma year_text_length t : year_text t = true -> length t = 4%nat.
Proof. destruct t as [|a [|b [|c [|d [|]]]]]; try discriminate. reflexivity. Qed.

(** A string can be cut in one way at most. *)
Lemma matches_unique s x x' : x ∈ matches s -> x' ∈ matches s -> x = x'.
Proof.
  destruct x as [[[d m] y] rest], x' as [[[d' m'] y'] rest'].
  rewrite !matches_spec.
  intros (-> & Hd & Hm & Hy) (H & Hd' & Hm' & Hy').
  apply no_dot_split in H as [<- H]; try (apply day_text_no_dot; assumption).
  apply no_dot_split in H as [<- H]; try (apply month_text_no_dot; assumption).
  apply app_inj_1 in H as [<- <-]; [reflexivity|].
  rewrite !year_text_length; auto.
Qed.

Lemma format_regex_match_spec s d m y rest :
  format_regex_match s = Some (d, m, y, rest) <->
  s = d ++ 46 :: m ++ 46 :: y ++ rest
  /\ day_text d = true /\ month_text m = true /\ year_text y = true.
Proof.
  rewrite <- matches_spec. unfold format_regex_match. split.
  - apply head_Some_elem_of.
  - intros Hin. destruct (matches s) as [|x l] eqn:Hm; [inversion Hin|].
    cbn. f_equal. apply (matches_unique s); rewrite Hm; [left | exact Hin].
Qed.

(** What [strptime] accepts, and the date it reads. *)
Lemma strptime_spec s dt :
  strptime (VStr s) = Ok dt <->
  exists d m y,
    s = d ++ 46 :: m ++ 46 :: y
    /\ day_text d = true /\ month_text m = true /\ year_text y = true
    /\ Date.valid (py_int y) (py_int m) (py_int d) = true
    /\ dt = Date.mkDate (py_int y) (py_int m) (py_int d).
Proof.
  unfold strptime. split.
  - destruct (format_regex_match s) as [[[[d m] y] rest]|] eqn:Hm;
      [|discriminate].
    destruct (bool_decide (rest = [])) eqn:Hr; [|discriminate].
    apply bool_decide_eq_true in Hr. subst rest. cbn [negb].
    intros H. apply new_ok in H as [-> Hv].
    apply format_regex_match_spec in Hm as (Hs & Hd & Hmm & Hy).
    rewrite app_nil_r in Hs. exists d, m, y.
    repeat split; assumption || reflexivity.
  - intros (d & m & y & -> & Hd & Hm & Hy & Hv & ->).
    assert (format_regex_match (d ++ 46 :: m ++ 46 :: y) = Some (d, m, y, []))
      as -> by (apply format_regex_match_spec; rewrite app_nil_r; auto).
    cbn. apply new_valid, Hv.
Qed.

Lemma Birthday_str s :
  Birthday (VStr s)
  = if is_ok (strptime (VStr s)) then Ok (mkField (VStr s))
    else Raise birthday_error.
Proof.
  unfold Birthday. rewrite result_bind_eq.
  unfold strptime. destruct (format_regex_match s) as [[[[d m] y] rest]|];
    [|reflexivity].
  destruct (negb _); [reflexivity|].
  unfold Date.new.
  repeat (match goal with |- context [if ?c then _ else _] => destruct c end;
          try reflexivity).
Qed.

Lemma check_range (P : Z -> bool) lo n :
  forallb P (seqZ lo n) = true -> forall k, lo <= k < lo + n -> P k = true.
Proof.
  rewrite forallb_forall. intros H k Hk.
  apply H, list_elem_of_In, elem_of_seqZ, Hk.
Qed.

Lemma day_digits d :
  1 <= d <= 31 ->
  day_text (Date.two_digits d) = true /\ py_int (Date.two_digits d) = d.
Proof.
  intros Hd.
  assert (day_text (Date.two_digits d)
          && (py_int (Date.two_digits d) =? d) = true) as H.
  { apply (check_range (fun d => day_text (Date.two_digits d)
                                 && (py_int (Date.two_digits d) =? d)) 1 31);
      [vm_compute; reflexivity | lia]. }
  apply andb_true_iff in H as [H1 H2]. apply Z.eqb_eq in H2. auto.
Qed.

Lemma month_digits m :
  1 <= m <= 12 ->
  month_text (Date.two_digits m) = true /\ py_int (Date.two_digits m) = m.
Proof.
  intros Hm.
  assert (month_text (Date.two_digits m)
          && (py_int (Date.two_digits m) =? m) = true) as H.
  { apply (check_range (fun m => month_text (Date.two_digits m)
                                 && (py_int (Date.two_digits m) =? m)) 1 12);
      [vm_compute; reflexivity | lia]. }
  apply andb_true_iff in H as [H1 H2]. apply Z.eqb_eq in H2. auto.
Qed.

Lemma year_digits y :
  0 <= y <= 9999 ->
  year_text (Date.two_digits (y / 100) ++ Date.two_digits (y mod 100)) = true
  /\ py_int (Date.two_digits (y / 100) ++ Date.two_digits (y mod 100)) = y.
Proof.
  intros Hy.
  pose (yyyy := fun y => Date.two_digits (y / 100) ++ Date.two_digits (y mod 100)).
  assert (year_text (yyyy y) && (py_int (yyyy y) =? y) = true) as H.
  { apply (check_range (fun y => year_text (yyyy y) && (py_int (yyyy y) =? y))
             0 10000); [vm_compute; reflexivity | lia]. }
  apply andb_true_iff in H as [H1 H2]. apply Z.eqb_eq in H2. auto.
Qed.

Lemma days_in_month_le_31 y m : Date.days_in_month y m <= 31.
Proof.
  unfold Date.days_in_month. destruct (_ && _); [lia|].
  unfold Date.DAYS_IN_MONTH.
  repeat match goal with
         | |- context [match ?x with _ => _ end] => destruct x
         end; lia.
Qed.

(** A valid date written as DD.MM.YYYY is read back as that date. *)
Lemma strptime_dd_mm_yyyy y m d :
  Date.valid y m d = true ->
  strptime (VStr (dd_mm_yyyy y m d)) = Ok (Date.mkDate y m d).
Proof.
  intros Hv. pose proof (valid_bounds _ _ _ Hv) as (Hy & Hm & Hd).
  pose proof (days_in_month_le_31 y m) as Hdim.
  unfold Date.MINYEAR, Date.MAXYEAR in Hy.
  destruct (day_digits d) as [Hd1 Hd2]; [lia|].
  destruct (month_digits m) as [Hm1 Hm2]; [lia|].
  destruct (year_digits y) as [Hy1 Hy2]; [lia|].
  apply strptime_spec.
  exists (Date.two_digits d), (Date.two_digits m),
    (Date.two_digits (y / 100) ++ Date.two_digits (y mod 100)).
  rewrite Hd2, Hm2, Hy2. repeat split; assumption || reflexivity.
Qed.

Lemma two_digits_ascii n :
  0 <= n <= 99 -> forallb is_ascii_digit (Date.two_digits n) = true.
Proof.
  intros Hn. unfold Date.two_digits, Date.digit, is_ascii_digit. cbn [forallb].
  rewrite !andb_true_iff, !Z.leb_le.
  Z.div_mod_to_equations. lia.
Qed.

Lemma dd_mm_yyyy_shape y m d :
  Date.valid y m d = true -> is_dd_mm_yyyy (dd_mm_yyyy y m d) = true.
Proof.
  intros Hv. pose proof (valid_bounds _ _ _ Hv) as (Hy & Hm & Hd).
  pose proof (days_in_month_le_31 y m) as Hdim.
  unfold Date.MINYEAR, Date.MAXYEAR in Hy.
  pose proof (two_digits_ascii d ltac:(lia)) as H1.
  pose proof (two_digits_ascii m ltac:(lia)) as H2.
  pose proof (two_digits_ascii (y / 100)
                ltac:(Z.div_mod_to_equations; lia)) as H3.
  pose proof (two_digits_ascii (y mod 100)
                ltac:(Z.div_mod_to_equations; lia)) as H4.
  unfold dd_mm_yyyy, Date.two_digits in *. cbn [app is_dd_mm_yyyy forallb] in *.
  repeat match goal with
         | H : _ && _ = true |- _ => apply andb_true_iff in H as [? ?]
         end.
  repeat match goal with
         | H : is_ascii_digit _ = true |- _ => rewrite H; clear H
         end.
  reflexivity.
Qed.

(** C3, as the code has it.  A string is accepted exactly when it is a
    day, a dot, a month, a dot and a year as [%d.%m.%Y] reads them, of a
    date that exists: the day and the month may have one digit, the day
    may have a space for its zero, and the year and the second digit of
    a day may be decimal digits of any script.  Every other string
    raises the [ValueError] of the validation.  In particular every
    date that exists is accepted in the form DD.MM.YYYY, the leap day
    29.02.2000 is accepted, and 31.04.2020 and 2000.02.29 are turned
    down. *)
Theorem Birthday_accepts :
  (forall s,
     Birthday (VStr s) = Ok (mkField (VStr s)) <->
     exists d m y,
       s = d ++ 46 :: m ++ 46 :: y
       /\ day_text d = true /\ month_text m = true /\ year_text y = true
       /\ Date.valid (py_int y) (py_int m) (py_int d) = true)
  /\ (forall s,
       Birthday (VStr s) = Ok (mkField (VStr s))
       \/ Birthday (VStr s) = Raise birthday_error)
  /\ (forall y m d,
       Date.valid y m d = true ->
       is_dd_mm_yyyy (dd_mm_yyyy y m d) = true
       /\ Birthday (VStr (dd_mm_yyyy y m d))
          = Ok (mkField (VStr (dd_mm_yyyy y m d))))
  /\ Birthday (VStr (str "29.02.2000")) = Ok (mkField (VStr (str "29.02.2000")))
  /\ Birthday (VStr (str "31.04.2020")) = Raise birthday_error
  /\ Birthday (VStr (str "2000.02.29")) = Raise birthday_error.
Proof.
  split; [|split; [|split; [|repeat split; reflexivity]]].
  - intros s. rewrite Birthday_str. split.
    + destruct (strptime (VStr s)) as [dt|] eqn:Hp; [|discriminate].
      intros _. apply strptime_spec in Hp as (d & m & y & H).
      exists d, m, y. tauto.
    + intros (d & m & y & Hs & Hd & Hm & Hy & Hv).
      assert (strptime (VStr s)
              = Ok (Date.mkDate (py_int y) (py_int m) (py_int d))) as ->
        by (apply strptime_spec; exists d, m, y; auto 10).
      reflexivity.
  - intros s. rewrite Birthday_str.
    destruct (is_ok _); [left | right]; reflexivity.
  - intros y m d Hv. split; [apply dd_mm_yyyy_shape, Hv|].
    rewrite Birthday_str, (strptime_dd_mm_yyyy y m d Hv). reflexivity.
Qed.

(** The leap day of 2000 in the form DD.MM.YYYY. *)
Lemma Birthday_accepts_witness :
  Birthday (VStr (dd_mm_yyyy 2000 2 29))
  = Ok (mkField (VStr (str "29.02.2000"))).
Proof.
  destruct Birthday_accepts as (_ & _ & H & _).
  destruct (H 2000 2 29 eq_refl) as [_ ->]. reflexivity.
Defined.

(** C3 fails as stated: 1.1.2000 has a day and a month of one digit, is
    not of the form DD.MM.YYYY, and is accepted. *)
Lemma Birthday_accepts_short_day :
  is_dd_mm_yyyy (str "1.1.2000") = false
  /\ Birthday (VStr (str "1.1.2000")) = Ok (mkField (VStr (str "1.1.2000"))).
Proof. split; reflexivity. Qed.

(** ** The weekday test *)

Lemma visit_no_weekday_eq today acc user :
  visit today acc user = visit_no_weekday today acc user.
Proof.
  unfold visit, visit_no_weekday.
  destruct (birthday user) as [b|]; [|reflexivity].
  destruct (Strptime.strptime (value b)) as [parsed|e]; [|reflexivity].
  cbn [mbind result_bind bind].
  destruct (Date.replace_year parsed (Date.year today)) as [c|e]; [|reflexivity].
  cbn [mbind result_bind bind].
  destruct (Date.isoweekday c <? 6); reflexivity.
Qed.

Lemma loop_no_weekday_eq today users : forall acc,
  loop today acc users = loop_no_weekday today acc users.
Proof.
  induction users as [|u users IH]; intros acc; cbn [loop loop_no_weekday].
  - reflexivity.
  - rewrite visit_no_weekday_eq.
    destruct (visit_no_weekday today acc u) as [acc'|e]; [|reflexivity].
    apply IH.
Qed.

(** C4.  The report is the same with the weekday test removed, for every
    book and every day. *)
Theorem weekday_test_is_dead (today : Date.date) (d : book) :
  get_upcoming_birthdays today d = get_upcoming_birthdays_no_weekday today d.
Proof. apply loop_no_weekday_eq. Qed.

(** ** The report of upcoming birthdays *)

(** From the year 1000 on [strftime] writes DD.MM.YYYY. *)
Lemma strftime_dd_mm_yyyy c :
  1000 <= Date.year c ->
  Date.strftime c = dd_mm_yyyy (Date.year c) (Date.month c) (Date.day c).
Proof.
  intros Hy. unfold Date.strftime, dd_mm_yyyy, Date.year_digits.
  assert ((Date.year c <? 10) = false) as -> by (apply Z.ltb_ge; lia).
  assert ((Date.year c <? 100) = false) as -> by (apply Z.ltb_ge; lia).
  assert ((Date.year c <? 1000) = false) as -> by (apply Z.ltb_ge; lia).
  reflexivity.
Qed.

Lemma candidate_valid today b c :
  candidate today b = Ok c ->
  Date.year c = Date.year today /\ valid_date c = true.
Proof.
  unfold candidate, candidate_in.
  destruct (Strptime.strptime (value b)) as [dt|]; [|discriminate].
  rewrite result_bind_eq. unfold Date.replace_year.
  intros H. apply new_ok in H as [-> Hv]. auto.
Qed.

(** A round of the loop in terms of the candidate date. *)
Lemma visit_eq today acc user :
  visit today acc user
  = match birthday user with
    | Some b =>
        match candidate today b with
        | Ok c =>
            Ok (acc ++ match due today user with Some e => [e] | None => [] end)
        | Raise e => Raise e
        end
    | None => Ok acc
    end.
Proof.
  rewrite visit_no_weekday_eq. unfold visit_no_weekday, due.
  destruct (birthday user) as [b|]; [|reflexivity].
  unfold candidate, candidate_in.
  destruct (Strptime.strptime (value b)) as [parsed|e]; [|reflexivity].
  rewrite !result_bind_eq.
  destruct (Date.replace_year parsed (Date.year today)) as [c|e]; [|reflexivity].
  cbn zeta. destruct ((0 <=? _) && _); [reflexivity|].
  rewrite app_nil_r. reflexivity.
Qed.

Lemma loop_app today us1 us2 : forall acc,
  loop today acc (us1 ++ us2)
  = loop today acc us1 ≫= fun acc' => loop today acc' us2.
Proof.
  induction us1 as [|u us1 IH]; intros acc; cbn [loop app]; [reflexivity|].
  rewrite !result_bind_eq.
  destruct (visit today acc u) as [acc'|e]; [apply IH | reflexivity].
Qed.

Lemma loop_due today users : forall acc,
  (forall r b, r ∈ users -> birthday r = Some b ->
               is_ok (candidate today b) = true) ->
  loop today acc users = Ok (acc ++ omap (due today) users).
Proof.
  induction users as [|u users IH]; intros acc Hok; cbn [loop omap list_omap].
  - rewrite app_nil_r. reflexivity.
  - rewrite result_bind_eq, visit_eq.
    assert (forall r b, r ∈ users -> birthday r = Some b ->
                        is_ok (candidate today b) = true) as Hok'
      by (intros r b Hr; apply Hok; right; exact Hr).
    unfold due at 2.
    destruct (birthday u) as [b|] eqn:Hb.
    + pose proof (Hok u b ltac:(left) Hb) as Hc.
      destruct (candidate today b) as [c|e] eqn:Hcand; [|discriminate].
      rewrite (IH _ Hok'). unfold due at 1. rewrite Hb, Hcand.
      cbn zeta. destruct ((0 <=? _) && _).
      * rewrite <- app_assoc. reflexivity.
      * rewrite app_nil_r. reflexivity.
    + apply IH, Hok'.
Qed.

Lemma due_spec today r e :
  due today r = Some e <->
  exists b c, birthday r = Some b /\ candidate today b = Ok c
              /\ 0 <= Date.days_between c today <= 7
              /\ e = mkEntry (value (name r)) (Date.strftime c).
Proof.
  unfold due. split.
  - destruct (birthday r) as [b|]; [|discriminate].
    destruct (candidate today b) as [c|] eqn:Hc; [|discriminate].
    cbn zeta. destruct ((0 <=? _) && _) eqn:Hd; [|discriminate].
    intros [= <-]. exists b, c.
    apply andb_true_iff in Hd as [H1 H2].
    apply Z.leb_le in H1, H2. auto.
  - intros (b & c & -> & -> & [H1 H2] & ->). cbn zeta.
    apply Z.leb_le in H1, H2. rewrite H1, H2. reflexivity.
Qed.

Lemma omap_names_sublist today users :
  map entry_name (omap (due today) users)
  `sublist_of` map (fun r => value (name r)) users.
Proof.
  induction users as [|u users IH]; cbn [omap list_omap map]; [constructor|].
  destruct (due today u) as [e|] eqn:He.
  - apply due_spec in He as (b & c & _ & _ & _ & ->).
    cbn. apply sublist_skip, IH.
  - apply sublist_cons, IH.
Qed.

(** C1, as the code has it.  When every stored birthday has a candidate
    date in the year of today, the call returns, and its result is the
    list of the entries of the due records in the order of the book: an
    entry is in it exactly when it is the name of a record of the book
    with the candidate date of its birthday, rendered by [strftime], and
    the candidate is today or at most seven days ahead.  From the year
    1000 on the rendered date has the form DD.MM.YYYY. *)
Theorem upcoming_birthdays_report (today : Date.date) (d : book) :
  (forall r b, r ∈ values d -> birthday r = Some b ->
               is_ok (candidate today b) = true) ->
  exists res,
    get_upcoming_birthdays today d = Ok res
    /\ res = omap (due today) (values d)
    /\ (forall e, e ∈ res <->
          exists r b c,
            r ∈ values d /\ birthday r = Some b /\ candidate today b = Ok c
            /\ 0 <= Date.days_between c today <= 7
            /\ e = mkEntry (value (name r)) (Date.strftime c))
    /\ map entry_name res `sublist_of` map (fun r => value (name r)) (values d)
    /\ (1000 <= Date.year today ->
        forall e, e ∈ res -> is_dd_mm_yyyy (entry_birthday e) = true).
Proof.
  intros Hok. exists (omap (due today) (values d)).
  split; [apply (loop_due today (values d) [] Hok)|].
  split; [reflexivity|].
  split; [|split; [apply omap_names_sublist|]].
  - intros e. rewrite list_elem_of_omap. split.
    + intros (r & Hr & He). apply due_spec in He as (b & c & H).
      exists r, b, c. tauto.
    + intros (r & b & c & Hr & H). exists r. split; [exact Hr|].
      apply due_spec. exists b, c. exact H.
  - intros Hy e He. apply list_elem_of_omap in He as (r & _ & He).
    apply due_spec in He as (b & c & _ & Hc & _ & ->).
    apply candidate_valid in Hc as [Hyc Hv]. cbn [entry_birthday].
    rewrite strftime_dd_mm_yyyy by lia. apply dd_mm_yyyy_shape, Hv.
Qed.

Lemma candidates_ok_forall today users :
  candidates_ok today users = true ->
  forall r b, r ∈ users -> birthday r = Some b ->
              is_ok (candidate today b) = true.
Proof.
  unfold candidates_ok. rewrite forallb_forall.
  intros H r b Hr Hb. apply list_elem_of_In in Hr.
  specialize (H r Hr). rewrite Hb in H. exact H.
Qed.

(** On 10.06.2024: the birthday of 12.06 is reported as 12.06.2024 and
    the birthday of today as 10.06.2024, in the order of the book; the
    birthday of 01.01 and the record without a birthday are left out. *)
Lemma upcoming_birthdays_report_witness :
  get_upcoming_birthdays (Date.mkDate 2024 6 10)
    (book_of [contact "Ann" "12.06.1990"; contact "Bob" "01.01.1990";
              mkRecord (mkField (VStr (str "Cid"))) [] None;
              contact "Dan" "10.06.1985"])
  = Ok [mkEntry (VStr (str "Ann")) (str "12.06.2024");
        mkEntry (VStr (str "Dan")) (str "10.06.2024")].
Proof.
  destruct (upcoming_birthdays_report (Date.mkDate 2024 6 10)
              (book_of [contact "Ann" "12.06.1990"; contact "Bob" "01.01.1990";
                        mkRecord (mkField (VStr (str "Cid"))) [] None;
                        contact "Dan" "10.06.1985"]))
    as (res & Hres & -> & _).
  - apply candidates_ok_forall. reflexivity.
  - rewrite Hres. reflexivity.
Defined.

(** C1 fails as stated: on 10.06.2023 Ann's birthday of 12.06 is two days
    ahead, yet the call on a book that also holds a birthday of 29.02
    raises and reports nobody. *)
Lemma report_lost_to_leap_day :
  due (Date.mkDate 2023 6 10) (contact "Ann" "12.06.1990")
  = Some (mkEntry (VStr (str "Ann")) (str "12.06.2023"))
  /\ get_upcoming_birthdays (Date.mkDate 2023 6 10)
       (book_of [contact "Ann" "12.06.1990"; contact "Bob" "29.02.2000"])
     = Raise date_error.
Proof. split; reflexivity. Qed.

(** ** The leap day *)

Lemma Birthday_ok_strptime v :
  is_ok (Birthday v) = is_ok (Strptime.strptime v).
Proof.
  unfold Birthday. rewrite result_bind_eq.
  destruct (Strptime.strptime v) as [dt|[]]; reflexivity.
Qed.

(** The candidate of a stored birthday in a year that dates can have:
    the same day and month when the month of that year is long enough. *)
Lemma candidate_in_cases y b dt :
  Strptime.strptime (value b) = Ok dt ->
  Date.MINYEAR <= y <= Date.MAXYEAR ->
  candidate_in y b
  = if Date.day dt <=? Date.days_in_month y (Date.month dt)
    then Ok (Date.mkDate y (Date.month dt) (Date.day dt))
    else Raise date_error.
Proof.
  intros Hp Hy. unfold candidate_in. rewrite Hp, result_bind_eq.
  apply strptime_valid, valid_bounds in Hp as (_ & Hm & Hd).
  unfold Date.replace_year. apply new_cases; lia.
Qed.

(** Only the 29th of February has no candidate, and only in a year that
    is not a leap year. *)
Lemma candidate_fails_on_leap_day_only y b dt :
  Strptime.strptime (value b) = Ok dt ->
  Date.MINYEAR <= y <= Date.MAXYEAR ->
  is_ok (candidate_in y b) = false <->
  Date.month dt = 2 /\ Date.day dt = 29 /\ Date.is_leap y = false.
Proof.
  intros Hp Hy. rewrite (candidate_in_cases y b dt Hp Hy).
  apply strptime_valid, valid_bounds in Hp as (_ & Hm & Hd).
  revert Hd. unfold Date.days_in_month.
  destruct (Z.eqb_spec (Date.month dt) 2) as [->|Hne]; cbn [andb].
  - destruct (Date.is_leap (Date.year dt)), (Date.is_leap y); cbn;
      intros Hd; destruct (Z.leb_spec (Date.day dt) 29),
                          (Z.leb_spec (Date.day dt) 28); cbn;
      split; intros; try discriminate; try lia; intuition (try lia; try discriminate).
  - intros Hd. destruct (Z.leb_spec (Date.day dt)
                           (Date.DAYS_IN_MONTH (Date.month dt))); cbn.
    + split; [discriminate | intros [? _]; contradiction].
    + lia.
Qed.

Lemma visit_ok_or_date_error today acc u :
  valid_date today = true ->
  (forall b, birthday u = Some b -> is_ok (Birthday (value b)) = true) ->
  is_ok (visit today acc u) = true \/ visit today acc u = Raise date_error.
Proof.
  intros Ht Hb. rewrite visit_eq.
  destruct (birthday u) as [b|]; [|left; reflexivity].
  specialize (Hb b eq_refl). rewrite Birthday_ok_strptime in Hb.
  destruct (Strptime.strptime (value b)) as [dt|] eqn:Hp; [|discriminate].
  apply valid_bounds in Ht as (Hy & _).
  unfold candidate. rewrite (candidate_in_cases _ b dt Hp Hy).
  destruct (_ <=? _); [left | right]; reflexivity.
Qed.

Lemma loop_raises_date_error today users r b y : forall acc,
  valid_date today = true ->
  (forall r' b', r' ∈ users -> birthday r' = Some b' ->
                 is_ok (Birthday (value b')) = true) ->
  r ∈ users ->
  birthday r = Some b ->
  Strptime.strptime (value b) = Ok (Date.mkDate y 2 29) ->
  Date.is_leap (Date.year today) = false ->
  loop today acc users = Raise date_error.
Proof.
  intros acc Ht Hwf Hr Hb Hp Hleap. revert acc.
  induction users as [|u users IH]; intros acc; [inversion Hr|].
  cbn [loop]. rewrite result_bind_eq.
  apply elem_of_cons in Hr as [<-|Hr].
  - rewrite visit_eq, Hb. unfold candidate.
    pose proof (valid_bounds _ _ _ Ht) as (Hy & _).
    rewrite (candidate_in_cases _ b _ Hp Hy). cbn [Date.month Date.day].
    unfold Date.days_in_month. rewrite Hleap. reflexivity.
  - destruct (visit_ok_or_date_error today acc u Ht) as [Hok|Herr].
    + intros b' Hb'. apply (Hwf u b'); [left | exact Hb'].
    + destruct (visit today acc u) as [acc'|]; [|discriminate].
      apply IH; [|exact Hr].
      intros r' b' Hr'. apply Hwf. right. exact Hr'.
    + rewrite Herr. reflexivity.
Qed.

(** C5.  In a book whose stored birthdays all passed [Birthday], a
    record whose birthday is a 29th of February makes the call raise the
    date error of [replace] whenever the year of today is no leap year;
    no list is returned. *)
Theorem leap_day_raises (today : Date.date) (d : book)
    (r : RecordObj) (b : Field) (y : Z) :
  valid_date today = true ->
  (forall r' b', r' ∈ values d -> birthday r' = Some b' ->
                 is_ok (Birthday (value b')) = true) ->
  r ∈ values d ->
  birthday r = Some b ->
  Strptime.strptime (value b) = Ok (Date.mkDate y 2 29) ->
  Date.is_leap (Date.year today) = false ->
  get_upcoming_birthdays today d = Raise date_error.
Proof.
  intros Ht Hwf Hr Hb Hp Hleap.
  apply (loop_raises_date_error today (values d) r b y [] Ht Hwf Hr Hb Hp Hleap).
Qed.

(** Bob was born on 29.02.2000; on 10.06.2023 the report raises. *)
Lemma leap_day_raises_witness :
  Date.is_leap 2000 = true
  /\ get_upcoming_birthdays (Date.mkDate 2023 6 10)
       (book_of [contact "Ann" "12.06.1990"; contact "Bob" "29.02.2000"])
     = Raise date_error.
Proof.
  split; [reflexivity|].
  apply (leap_day_raises (Date.mkDate 2023 6 10)
           (book_of [contact "Ann" "12.06.1990"; contact "Bob" "29.02.2000"])
           (contact "Bob" "29.02.2000")
           (mkField (VStr (str "29.02.2000"))) 2000).
  - reflexivity.
  - intros r' b' Hr' Hb'.
    apply elem_of_cons in Hr' as [->|Hr'];
      [|apply list_elem_of_singleton in Hr' as ->];
      injection Hb' as <-; reflexivity.
  - right. left.
  - reflexivity.
  - reflexivity.
  - reflexivity.
Defined.

(** ** The end of the year *)

Lemma loop_skip today us1 u us2 acc :
  (forall acc', visit today acc' u = Ok acc') ->
  loop today acc (us1 ++ u :: us2) = loop today acc (us1 ++ us2).
Proof.
  intros Hu. rewrite !loop_app, !result_bind_eq.
  destruct (loop today acc us1) as [acc'|e]; [|reflexivity].
  cbn [loop]. rewrite Hu. reflexivity.
Qed.

(** C10.  A birthday that comes next in the following year, within seven
    days of today, has its candidate in the year of today at least 358
    days back, and its record adds nothing to the report: the call gives
    what it gives on the book without the record. *)
Theorem no_wrap_into_next_year (today : Date.date) (d1 d2 : book)
    (k : pyval) (r : RecordObj) (b : Field) (c nxt : Date.date) :
  birthday r = Some b ->
  candidate today b = Ok c ->
  candidate_in (Date.year today + 1) b = Ok nxt ->
  0 <= Date.days_between nxt today <= 7 ->
  Date.days_between c today <= -358
  /\ get_upcoming_birthdays today (d1 ++ (k, r) :: d2)
     = get_upcoming_birthdays today (d1 ++ d2).
Proof.
  intros Hb Hc Hn Hd.
  assert (Date.days_between c today <= -358) as Hdelta.
  { unfold candidate, candidate_in in Hc, Hn.
    destruct (Strptime.strptime (value b)) as [dt|]; [|discriminate].
    rewrite result_bind_eq in Hc, Hn. unfold Date.replace_year in Hc, Hn.
    apply new_ok in Hc as [-> _]. apply new_ok in Hn as [-> _].
    unfold Date.days_between, Date.toordinal in *. cbn in *.
    pose proof (ymd2ord_next_year (Date.year today) (Date.month dt)
                  (Date.day dt)).
    lia. }
  split; [exact Hdelta|].
  unfold get_upcoming_birthdays, values. rewrite !map_app. cbn [map snd].
  apply loop_skip. intros acc. rewrite visit_eq, Hb, Hc.
  unfold due. rewrite Hb, Hc. cbn zeta.
  assert ((0 <=? Date.days_between c today) = false) as ->
    by (apply Z.leb_gt; lia).
  cbn. rewrite app_nil_r. reflexivity.
Qed.

(** On 30.12.2024 the birthday of 02.01 is three days ahead, in 2025;
    its candidate 02.01.2024 is 363 days back, and it is not reported. *)
Lemma no_wrap_into_next_year_witness :
  Date.days_between (Date.mkDate 2025 1 2) (Date.mkDate 2024 12 30) = 3
  /\ Date.days_between (Date.mkDate 2024 1 2) (Date.mkDate 2024 12 30) = -363
  /\ get_upcoming_birthdays (Date.mkDate 2024 12 30)
       ([] ++ (VStr (str "Eve"), contact "Eve" "02.01.1990") :: [])
     = Ok [].
Proof.
  split; [reflexivity|]. split; [reflexivity|].
  destruct (no_wrap_into_next_year (Date.mkDate 2024 12 30) [] []
              (VStr (str "Eve")) (contact "Eve" "02.01.1990")
              (mkField (VStr (str "02.01.1990")))
              (Date.mkDate 2024 1 2) (Date.mkDate 2025 1 2))
    as [_ ->].
  - reflexivity.
  - reflexivity.
  - reflexivity.
  - split; [apply Z.leb_le | apply Z.leb_le]; reflexivity.
  - reflexivity.
Defined.

(** * Further properties of the code *)

(** ** Phones of a record *)

Lemma Phone_ok_value v f : Phone v = Ok f -> f = mkField v.
Proof.
  unfold Phone. rewrite !result_bind_eq.
  destruct (isdigit v) as [d|[]]; cbn [try_except]; try discriminate.
  destruct (negb d); cbn [try_except]; [discriminate|].
  rewrite result_bind_eq.
  destruct (len v) as [n|[]]; cbn [try_except]; try discriminate.
  destruct (negb (n =? 10)); cbn [try_except]; [discriminate|].
  congruence.
Qed.

Lemma find_filter_self σ v ps :
  List.find (value_is σ v)
    (List.filter (fun l => negb (value_is σ v l)) ps) = None.
Proof.
  induction ps as [|x ps IH]; cbn; [reflexivity|].
  destruct (value_is σ v x) eqn:Hx; cbn; [exact IH|].
  rewrite Hx. exact IH.
Qed.

Lemma value_is_functional σ v w x :
  value_is σ v x = true -> w <> v -> value_is σ w x = false.
Proof.
  unfold value_is. destruct (σ !! x) as [f|]; [|discriminate].
  intros Hv Hne. apply py_eq_true in Hv. apply py_eq_false. congruence.
Qed.

Lemma find_filter_other σ v w ps :
  w <> v ->
  List.find (value_is σ w)
    (List.filter (fun l => negb (value_is σ v l)) ps)
  = List.find (value_is σ w) ps.
Proof.
  intros Hne. induction ps as [|x ps IH]; cbn; [reflexivity|].
  destruct (value_is σ v x) eqn:Hx; cbn.
  - rewrite (value_is_functional σ v w x Hx Hne). exact IH.
  - destruct (value_is σ w x); [reflexivity | exact IH].
Qed.

Lemma filter_sublist {A} (p : A -> bool) (l : list A) :
  List.filter p l `sublist_of` l.
Proof.
  induction l as [|x l IH]; cbn; [constructor|].
  destruct (p x); [apply sublist_skip | apply sublist_cons]; exact IH.
Qed.

Lemma filter_all {A} (p : A -> bool) (l : list A) :
  (forall x, In x l -> p x = true) -> List.filter p l = l.
Proof.
  induction l as [|x l IH]; cbn; intros H; [reflexivity|].
  rewrite (H x) by (left; reflexivity). f_equal. apply IH.
  intros y Hy. apply H. right. exact Hy.
Qed.

(** X1.  [remove_phone] never raises and touches no [Phone] object.  After
    it no slot holds the value, the slots that stay are in their old
    order, every other value is found in the slot in which it was found
    before, and a record without the value stays as it is. *)
Theorem remove_phone_removes_all (st : state) (v : pyval) :
  exists st',
    remove_phone v st = (Ok (), st')
    /\ store st' = store st
    /\ name (self st') = name (self st)
    /\ birthday (self st') = birthday (self st)
    /\ find_phone v st' = (Ok None, st')
    /\ phones (self st') `sublist_of` phones (self st)
    /\ (forall w, w <> v -> fst (find_phone w st') = fst (find_phone w st))
    /\ (find_phone v st = (Ok None, st) -> st' = st).
Proof.
  eexists. split; [reflexivity|].
  cbn [store self name birthday phones].
  split; [reflexivity|]. split; [reflexivity|]. split; [reflexivity|].
  split; [rewrite find_phone_eq; cbn [store self phones];
          rewrite find_filter_self; reflexivity|].
  split; [apply filter_sublist|].
  split.
  - intros w Hw. rewrite !find_phone_eq. cbn [fst store self phones].
    rewrite (find_filter_other _ _ _ _ Hw). reflexivity.
  - intros Hnone. apply find_phone_inv in Hnone.
    rewrite filter_all.
    + destruct st as [σ [n ps b]]. reflexivity.
    + intros x Hx. rewrite (find_none _ _ Hnone x Hx). reflexivity.
Qed.

(** Both slots with 1111111111 go, the slot with 2222222222 stays. *)
Lemma remove_phone_removes_all_witness :
  phones (self (snd (remove_phone (VStr s1111)
                       (snd (add_phone (VStr s1111) st_two)))))
  = [1%positive]
  /\ snd (remove_phone (VStr (str "9999999999")) st_two) = st_two.
Proof.
  split; [reflexivity|].
  destruct (remove_phone_removes_all st_two (VStr (str "9999999999")))
    as (st' & Hr & _ & _ & _ & _ & _ & _ & Hsame).
  rewrite Hr. apply Hsame. reflexivity.
Defined.

Lemma find_app_none {A} (p : A -> bool) (l1 l2 : list A) :
  List.find p l2 = None -> List.find p (l1 ++ l2) = List.find p l1.
Proof.
  intros H. induction l1 as [|x l1 IH]; cbn; [exact H|].
  destruct (p x); [reflexivity | exact IH].
Qed.

Lemma find_ext_in {A} (p q : A -> bool) (l : list A) :
  (forall x, In x l -> p x = q x) -> List.find p l = List.find q l.
Proof.
  induction l as [|x l IH]; cbn; intros H; [reflexivity|].
  rewrite (H x) by (left; reflexivity).
  destruct (q x); [reflexivity|]. apply IH.
  intros y Hy. apply H. right. exact Hy.
Qed.

Lemma value_is_insert_fresh σ l v w x :
  σ !! l = None -> w <> v ->
  value_is (<[l := mkField v]> σ) w x = value_is σ w x.
Proof.
  intros Hl Hne. unfold value_is. destruct (decide (x = l)) as [->|Hx].
  - rewrite lookup_insert_eq, Hl. cbn. apply py_eq_false. congruence.
  - rewrite lookup_insert_ne by congruence. reflexivity.
Qed.

(** X2.  A value that [Phone] accepts is put into a new object, which becomes
    the last slot of the record; the objects that were there keep their
    values, the value is found afterwards, and every other value is
    found in the slot in which it was found before.  Nothing is done
    about a value that the record holds already. *)
Theorem add_phone_appends (st : state) (v : pyval) (f : Field) :
  Phone v = Ok f ->
  exists l st',
    add_phone v st = (Ok (), st')
    /\ store st !! l = None
    /\ store st' = <[l := mkField v]> (store st)
    /\ phones (self st') = phones (self st) ++ [l]
    /\ name (self st') = name (self st)
    /\ birthday (self st') = birthday (self st)
    /\ (exists l', find_phone v st' = (Ok (Some l'), st')
                   /\ store st' !! l' = Some (mkField v))
    /\ (forall w, w <> v -> fst (find_phone w st') = fst (find_phone w st)).
Proof.
  intros Hp. pose proof (Phone_ok_value v f Hp) as ->.
  set (l := fresh (dom (store st))).
  assert (store st !! l = None) as Hl
    by (apply not_elem_of_dom, is_fresh).
  exists l. eexists.
  split; [unfold add_phone; rewrite M_bind_eq; unfold pure; rewrite Hp;
          reflexivity|].
  cbn [store self name birthday phones]. fold l.
  split; [exact Hl|]. split; [reflexivity|]. split; [reflexivity|].
  split; [reflexivity|]. split; [reflexivity|]. split.
  - rewrite find_phone_eq. cbn [store self phones].
    destruct (List.find (value_is (<[l:=mkField v]> (store st)) v)
                (phones (self st) ++ [l])) as [l'|] eqn:Hf.
    + exists l'. split; [reflexivity|].
      apply find_some in Hf as [_ Hv]. apply value_is_lookup, Hv.
    + exfalso.
      assert (In l (phones (self st) ++ [l])) as Hin
        by (apply in_or_app; right; left; reflexivity).
      pose proof (find_none _ _ Hf l Hin) as Hv.
      rewrite value_is_insert, bool_decide_eq_true_2 in Hv by reflexivity.
      discriminate.
  - intros w Hw. rewrite !find_phone_eq. cbn [fst store self phones].
    f_equal. rewrite find_app_none.
    + apply find_ext_in. intros x _. apply value_is_insert_fresh; assumption.
    + cbn. rewrite value_is_insert_fresh by assumption.
      unfold value_is. rewrite Hl. reflexivity.
Qed.

(** A second 1111111111 for the record that holds one already. *)
Lemma add_phone_appends_witness :
  exists l st',
    add_phone (VStr s1111) st_one = (Ok (), st')
    /\ store st_one !! l = None
    /\ phones (self st') = [1%positive; l].
Proof.
  destruct (add_phone_appends st_one (VStr s1111) (mkField (VStr s1111))
              eq_refl) as (l & st' & Ha & Hl & _ & Hps & _).
  exists l, st'. split; [exact Ha|]. split; [exact Hl | exact Hps].
Defined.

Lemma add_phone_eq st v :
  Phone v = Ok (mkField v) ->
  add_phone v st
  = (Ok (),
     mkState (<[fresh (dom (store st)) := mkField v]> (store st))
       (mkRecord (name (self st))
          (phones (self st) ++ [fresh (dom (store st))])
          (birthday (self st)))).
Proof.
  intros Hp. unfold add_phone. rewrite M_bind_eq. unfold pure. rewrite Hp.
  reflexivity.
Qed.

Lemma remove_phone_eq st v :
  remove_phone v st
  = (Ok (),
     mkState (store st)
       (mkRecord (name (self st))
          (List.filter (fun l => negb (value_is (store st) v l))
             (phones (self st)))
          (birthday (self st)))).
Proof. reflexivity. Qed.

(** X3.  In a record whose slots are objects of the store, adding a value and
    then removing it leaves the record as removing it alone does: the
    other phones in their order, and the name and the birthday. *)
Theorem add_then_remove_phone (st : state) (v : pyval) (f : Field) :
  Phone v = Ok f ->
  (forall x, In x (phones (self st)) -> is_Some (store st !! x)) ->
  fst (remove_phone v (snd (add_phone v st))) = Ok ()
  /\ self (snd (remove_phone v (snd (add_phone v st))))
     = self (snd (remove_phone v st)).
Proof.
  intros Hp Hwf. pose proof (Phone_ok_value v f Hp) as ->.
  rewrite (add_phone_eq st v Hp), !remove_phone_eq.
  split; [reflexivity|].
  set (l := fresh (dom (store st))).
  assert (store st !! l = None) as Hl by (apply not_elem_of_dom, is_fresh).
  cbn [snd store self name birthday phones]. f_equal.
  rewrite List.filter_app. cbn [List.filter].
  rewrite value_is_insert, bool_decide_eq_true_2 by reflexivity.
  cbn [orb negb]. rewrite app_nil_r.
  apply List.filter_ext_in. intros x Hx. f_equal.
  rewrite value_is_insert.
  destruct (decide (x = l)) as [->|Hne].
  - destruct (Hwf l Hx) as [g Hg]. congruence.
  - rewrite bool_decide_eq_false_2 by exact Hne. reflexivity.
Qed.

(** Adding 2222222222 to the record with 1111111111 and removing it
    again. *)
Lemma add_then_remove_phone_witness :
  self (snd (remove_phone (VStr s2222) (snd (add_phone (VStr s2222) st_one))))
  = self st_one.
Proof.
  assert (forall x, In x (phones (self st_one)) -> is_Some (store st_one !! x))
    as Hwf by (intros x [<-|[]]; eexists; reflexivity).
  destruct (add_then_remove_phone st_one (VStr s2222)
              (mkField (VStr s2222)) eq_refl Hwf) as [_ H].
  rewrite H. reflexivity.
Defined.

(** X4.  When the new value is in no slot, an edit and the edit back bring
    the record and its [Phone] objects to where they were. *)
Theorem edit_phone_there_and_back (st : state) (a b : pystr) (l : loc) :
  find_phone (VStr a) st = (Ok (Some l), st) ->
  find_phone (VStr b) st = (Ok None, st) ->
  is_isdigit_phone a = true ->
  is_isdigit_phone b = true ->
  exists st1,
    edit_phone (VStr a) (VStr b) st = (Ok (), st1)
    /\ edit_phone (VStr b) (VStr a) st1 = (Ok (), st).
Proof.
  intros Ha Hb Hva Hvb.
  eexists. split; [apply (edit_phone_found_valid _ _ _ _ Ha Hvb)|].
  pose proof (find_phone_inv _ _ _ Ha) as Hfa.
  pose proof (find_phone_inv _ _ _ Hb) as Hfb.
  apply find_some in Hfa as [Hin Hval].
  destruct (find_after_edit (store st) (phones (self st)) l (VStr b) Hin)
    as (l' & Hf & _ & Hsame).
  rewrite (Hsame Hfb) in Hf.
  rewrite (edit_phone_found_valid (VStr b) a _ l).
  - cbn [store self]. rewrite insert_insert_eq.
    rewrite (insert_id _ _ _ (value_is_lookup _ _ _ Hval)).
    destruct st. reflexivity.
  - rewrite find_phone_eq. cbn [store self]. rewrite Hf. reflexivity.
  - exact Hva.
Qed.

(** 1111111111 to 2222222222 and back. *)
Lemma edit_phone_there_and_back_witness :
  exists st1,
    edit_phone (VStr s1111) (VStr s2222) st_one = (Ok (), st1)
    /\ edit_phone (VStr s2222) (VStr s1111) st1 = (Ok (), st_one).
Proof.
  apply (edit_phone_there_and_back st_one s1111 s2222 1%positive);
    reflexivity.
Defined.

(** ** Keys of the book *)

Lemma find_none_iff (d : book) (n : pyval) : find d n = None <-> n ∉ keys d.
Proof.
  rewrite <- contains_false_keys. unfold find, get, contains.
  induction d as [|[k v] d IH]; cbn; [tauto|].
  destruct (py_eq k n); cbn; [split; discriminate | exact IH].
Qed.

(** X5.  [find] gives [None] exactly for a name that is no key, and what it
    gives for a key is a record that the book holds under that key. *)
Theorem find_gives_stored (d : book) (n : pyval) :
  (find d n = None <-> n ∉ keys d)
  /\ (forall r, find d n = Some r -> (n, r) ∈ d).
Proof.
  split; [apply find_none_iff|].
  unfold find, get. intros r H.
  destruct (List.find _ d) as [[k v]|] eqn:Hf; [|discriminate].
  injection H as ->. apply find_some in Hf as [Hin Hk].
  apply py_eq_true in Hk. cbn in Hk. subst k.
  apply list_elem_of_In, Hin.
Qed.

(** Bob is not in the book with Ann only, and Ann is. *)
Lemma find_gives_stored_witness :
  find (book_of [contact "Ann" "12.06.1990"]) (VStr (str "Bob")) = None
  /\ (VStr (str "Ann"), contact "Ann" "12.06.1990")
     ∈ book_of [contact "Ann" "12.06.1990"].
Proof.
  split.
  - apply (find_gives_stored (book_of [contact "Ann" "12.06.1990"])
             (VStr (str "Bob"))).
    intros H. apply list_elem_of_singleton in H. discriminate H.
  - apply (find_gives_stored (book_of [contact "Ann" "12.06.1990"])
             (VStr (str "Ann"))). reflexivity.
Defined.

Lemma replace_absent (d : book) k v :
  contains d k = false ->
  map (fun kv => if py_eq (fst kv) k then (fst kv, v) else kv) d = d.
Proof.
  unfold contains. induction d as [|[k0 v0] d IH]; cbn; [reflexivity|].
  intros H. apply orb_false_iff in H as [H1 H2].
  rewrite H1, (IH H2). reflexivity.
Qed.

Lemma replace_twice (d : book) k v :
  map (fun kv => if py_eq (fst kv) k then (fst kv, v) else kv)
    (map (fun kv => if py_eq (fst kv) k then (fst kv, v) else kv) d)
  = map (fun kv => if py_eq (fst kv) k then (fst kv, v) else kv) d.
Proof.
  induction d as [|[k0 v0] d IH]; cbn; [reflexivity|].
  rewrite IH. destruct (py_eq k0 k) eqn:Hk; cbn; rewrite Hk; reflexivity.
Qed.

Lemma contains_setitem d k v : contains (setitem d k v) k = true.
Proof.
  apply contains_keys. rewrite keys_setitem.
  destruct (contains d k) eqn:Hc; [apply contains_keys, Hc|].
  apply elem_of_app. right. left.
Qed.

(** X6.  [add_record] keeps the order of the keys: a record whose name is a
    key takes the place of the old one, a record with a new name becomes
    the last entry; and adding the same record twice is adding it
    once. *)
Theorem add_record_keeps_order (d : book) (r : RecordObj) :
  (value (name r) ∈ keys d -> keys (add_record d r) = keys d)
  /\ (value (name r) ∉ keys d -> add_record d r = d ++ [(value (name r), r)])
  /\ add_record (add_record d r) r = add_record d r.
Proof.
  unfold add_record. split; [|split].
  - intros H. apply contains_keys in H. rewrite keys_setitem, H. reflexivity.
  - intros H. apply contains_false_keys in H. unfold setitem. rewrite H.
    reflexivity.
  - unfold setitem at 1. rewrite contains_setitem.
    unfold setitem. destruct (contains d (value (name r))) eqn:Hc.
    + apply replace_twice.
    + rewrite map_app, (replace_absent _ _ _ Hc). cbn.
      rewrite py_eq_refl. reflexivity.
Qed.

(** Ann's new record takes the first place, which was hers. *)
Lemma add_record_keeps_order_witness :
  keys (add_record (book_of [contact "Ann" "12.06.1990";
                             contact "Bob" "01.01.1990"])
                   (contact "Ann" "13.06.1990"))
  = [VStr (str "Ann"); VStr (str "Bob")].
Proof.
  destruct (add_record_keeps_order
              (book_of [contact "Ann" "12.06.1990"; contact "Bob" "01.01.1990"])
              (contact "Ann" "13.06.1990")) as (H & _).
  rewrite H; [reflexivity | left].
Defined.

Lemma keys_delitem d n :
  keys (delitem d n) = List.filter (fun k => negb (py_eq k n)) (keys d).
Proof.
  unfold keys, delitem. induction d as [|[k v] d IH]; cbn; [reflexivity|].
  destruct (py_eq k n); cbn; rewrite IH; reflexivity.
Qed.

Lemma get_delitem_eq d n : get (delitem d n) n = None.
Proof.
  unfold get, delitem. induction d as [|[k v] d IH]; cbn; [reflexivity|].
  destruct (py_eq k n) eqn:Hk; cbn; [exact IH|]. rewrite Hk. exact IH.
Qed.

Lemma get_delitem_ne d n n' : n' <> n -> get (delitem d n) n' = get d n'.
Proof.
  intros Hne. unfold get, delitem.
  induction d as [|[k v] d IH]; cbn; [reflexivity|].
  destruct (py_eq k n) eqn:Hk; cbn.
  - apply py_eq_true in Hk. subst k.
    assert (py_eq n n' = false) as -> by (apply py_eq_false; congruence).
    exact IH.
  - destruct (py_eq k n'); [reflexivity | exact IH].
Qed.

Lemma length_delitem d n :
  NoDup (keys d) -> n ∈ keys d -> length d = S (length (delitem d n)).
Proof.
  unfold keys, delitem. induction d as [|[k v] d IH]; cbn; intros Hnd Hin.
  - inversion Hin.
  - apply NoDup_cons in Hnd as [Hk Hnd].
    destruct (py_eq k n) eqn:Hkn; cbn.
    + apply py_eq_true in Hkn. subst k. f_equal.
      fold (delitem d n). f_equal. symmetry.
      apply filter_all. intros [k' v'] Hin'. cbn.
      apply negb_true_iff, py_eq_false. intros ->.
      apply Hk. apply list_elem_of_In in Hin'.
      apply (list_elem_of_fmap_2 fst) in Hin'. exact Hin'.
    + f_equal. apply IH; [exact Hnd|].
      apply elem_of_cons in Hin as [->|Hin]; [|exact Hin].
      rewrite py_eq_refl in Hkn. discriminate.
Qed.

(** X7.  Deleting a name that is a key succeeds: afterwards the name is not
    found, every other name is found as before, the other keys are in
    their old order, and a book without double keys has one entry
    less. *)
Theorem delete_present (d : book) (n : pyval) :
  n ∈ keys d ->
  exists d',
    delete d n = (Ok (), d')
    /\ find d' n = None
    /\ (forall n', n' <> n -> find d' n' = find d n')
    /\ keys d' = List.filter (fun k => negb (py_eq k n)) (keys d)
    /\ (NoDup (keys d) -> length d = S (length d')).
Proof.
  intros Hin. exists (delitem d n).
  unfold delete. rewrite (proj2 (contains_keys d n) Hin).
  split; [reflexivity|]. split; [apply get_delitem_eq|].
  split; [intros n' Hn'; apply get_delitem_ne, Hn'|].
  split; [apply keys_delitem|].
  intros Hnd. apply length_delitem; assumption.
Qed.

(** Deleting Ann from the book of Ann and Bob leaves Bob. *)
Lemma delete_present_witness :
  delete (book_of [contact "Ann" "12.06.1990"; contact "Bob" "01.01.1990"])
         (VStr (str "Ann"))
  = (Ok (), book_of [contact "Bob" "01.01.1990"]).
Proof.
  destruct (delete_present
              (book_of [contact "Ann" "12.06.1990"; contact "Bob" "01.01.1990"])
              (VStr (str "Ann"))) as (d' & Hd & _); [left|].
  rewrite Hd. f_equal.
  assert (d' = snd (delete (book_of [contact "Ann" "12.06.1990";
                                      contact "Bob" "01.01.1990"])
                           (VStr (str "Ann")))) as ->
    by (rewrite Hd; reflexivity).
  reflexivity.
Defined.

(** X8.  A record with a new name that is added and then deleted by its name
    leaves the book as it was. *)
Theorem add_record_then_delete (d : book) (r : RecordObj) :
  value (name r) ∉ keys d ->
  delete (add_record d r) (value (name r)) = (Ok (), d).
Proof.
  intros Hn. apply contains_false_keys in Hn.
  unfold delete, add_record. rewrite contains_setitem.
  unfold setitem. rewrite Hn. f_equal.
  unfold delitem. rewrite List.filter_app. cbn.
  rewrite py_eq_refl. cbn. rewrite app_nil_r.
  apply filter_all. intros [k v] Hin. cbn.
  apply negb_true_iff. unfold contains in Hn.
  rewrite <- not_true_iff_false, existsb_exists in Hn.
  apply not_true_iff_false. intros Hk. apply Hn. exists (k, v). auto.
Qed.

(** Bob is added to the book with Ann and deleted again. *)
Lemma add_record_then_delete_witness :
  delete (add_record (book_of [contact "Ann" "12.06.1990"])
                     (contact "Bob" "01.01.1990")) (VStr (str "Bob"))
  = (Ok (), book_of [contact "Ann" "12.06.1990"]).
Proof.
  apply (add_record_then_delete (book_of [contact "Ann" "12.06.1990"])
           (contact "Bob" "01.01.1990")).
  intros H. apply list_elem_of_singleton in H. discriminate H.
Defined.

(** ** When the report returns *)

Lemma loop_ok_candidates today users : forall acc res,
  loop today acc users = Ok res -> candidates_ok today users = true.
Proof.
  induction users as [|u users IH]; intros acc res; cbn [loop]; [reflexivity|].
  rewrite result_bind_eq, visit_eq. unfold candidates_ok. cbn [forallb].
  destruct (birthday u) as [b|].
  - destruct (candidate today b) as [c|]; [|discriminate].
    cbn [is_ok andb]. apply IH.
  - cbn [andb]. apply IH.
Qed.

Lemma candidates_ok_false today users :
  candidates_ok today users = false ->
  exists r b, r ∈ users /\ birthday r = Some b
              /\ is_ok (candidate today b) = false.
Proof.
  unfold candidates_ok. induction users as [|u users IH]; cbn [forallb];
    [discriminate|].
  intros H. apply andb_false_iff in H as [H|H].
  - destruct (birthday u) as [b|] eqn:Hb; [|discriminate].
    exists u, b. split; [left|]. auto.
  - destruct (IH H) as (r & b & Hr & Hb & Hc).
    exists r, b. split; [right; exact Hr|]. auto.
Qed.

(** X9.  In a book whose stored birthdays all passed [Birthday], on a day
    that exists, the report raises exactly when the year of today is no
    leap year and some record has a birthday on a 29th of February; in
    every other case a list is returned. *)
Theorem report_raises_iff (today : Date.date) (d : book) :
  valid_date today = true ->
  (forall r b, r ∈ values d -> birthday r = Some b ->
               is_ok (Birthday (value b)) = true) ->
  is_ok (get_upcoming_birthdays today d) = false <->
  Date.is_leap (Date.year today) = false
  /\ exists r b dt,
       r ∈ values d /\ birthday r = Some b
       /\ Strptime.strptime (value b) = Ok dt
       /\ Date.month dt = 2 /\ Date.day dt = 29.
Proof.
  intros Ht Hwf. pose proof (valid_bounds _ _ _ Ht) as (Hy & _).
  unfold get_upcoming_birthdays. split.
  - intros Hraise.
    destruct (candidates_ok today (values d)) eqn:Hc.
    + rewrite (loop_due today (values d) [] (candidates_ok_forall _ _ Hc))
        in Hraise. discriminate.
    + apply candidates_ok_false in Hc as (r & b & Hr & Hb & Hc).
      pose proof (Hwf r b Hr Hb) as Hp. rewrite Birthday_ok_strptime in Hp.
      destruct (Strptime.strptime (value b)) as [dt|] eqn:Hdt; [|discriminate].
      destruct (proj1 (candidate_fails_on_leap_day_only
                         (Date.year today) b dt Hdt Hy) Hc)
        as (Hmonth & Hday & Hleap).
      split; [exact Hleap|]. exists r, b, dt. auto.
  - intros (Hleap & r & b & [y m dd] & Hr & Hb & Hdt & Hm & Hd).
    cbn in Hm, Hd. subst m dd.
    rewrite (loop_raises_date_error today (values d) r b y []
               Ht Hwf Hr Hb Hdt Hleap).
    reflexivity.
Qed.

(** In the leap year 2024 the book with the birthday of 29.02 is
    reported on. *)
Lemma report_raises_iff_witness :
  is_ok (get_upcoming_birthdays (Date.mkDate 2024 6 10)
           (book_of [contact "Ann" "12.06.1990"; contact "Bob" "29.02.2000"]))
  = true.
Proof.
  apply not_false_iff_true. intros H.
  apply (report_raises_iff (Date.mkDate 2024 6 10)
           (book_of [contact "Ann" "12.06.1990"; contact "Bob" "29.02.2000"]))
    in H as [Hleap _].
  - discriminate Hleap.
  - reflexivity.
  - intros r b Hr Hb.
    apply elem_of_cons in Hr as [->|Hr];
      [|apply list_elem_of_singleton in Hr as ->];
      injection Hb as <-; reflexivity.
Defined.

(** X10.  Every date of a returned report, from the year 1000 on, is a text
    that [Birthday] accepts, and it reads back as a day of the year of
    today that is today or at most seven days ahead. *)
Theorem report_dates_read_back (today : Date.date) (d : book)
    (res : list entry) :
  get_upcoming_birthdays today d = Ok res ->
  1000 <= Date.year today ->
  forall e, e ∈ res ->
    exists c,
      Strptime.strptime (VStr (entry_birthday e)) = Ok c
      /\ Date.year c = Date.year today
      /\ 0 <= Date.days_between c today <= 7
      /\ Birthday (VStr (entry_birthday e))
         = Ok (mkField (VStr (entry_birthday e))).
Proof.
  intros Hres Hy e He. unfold get_upcoming_birthdays in Hres.
  pose proof (loop_ok_candidates _ _ _ _ Hres) as Hc.
  rewrite (loop_due today (values d) [] (candidates_ok_forall _ _ Hc)) in Hres.
  injection Hres as <-. cbn [app] in He.
  apply list_elem_of_omap in He as (r & _ & He).
  apply due_spec in He as (b & c & _ & Hcand & Hdelta & ->).
  apply candidate_valid in Hcand as [Hyc Hv]. cbn [entry_birthday].
  assert (Strptime.strptime (VStr (Date.strftime c)) = Ok c) as Hback.
  { rewrite strftime_dd_mm_yyyy by lia.
    rewrite (strptime_dd_mm_yyyy _ _ _ Hv). destruct c. reflexivity. }
  exists c. split; [exact Hback|]. split; [exact Hyc|]. split; [exact Hdelta|].
  rewrite Birthday_str, Hback. reflexivity.
Qed.

(** The report of 10.06.2024 on Ann, born on 12.06. *)
Lemma report_dates_read_back_witness :
  exists c,
    Strptime.strptime (VStr (str "12.06.2024")) = Ok c
    /\ Date.year c = 2024
    /\ 0 <= Date.days_between c (Date.mkDate 2024 6 10) <= 7
    /\ Birthday (VStr (str "12.06.2024"))
       = Ok (mkField (VStr (str "12.06.2024"))).
Proof.
  apply (report_dates_read_back (Date.mkDate 2024 6 10)
           (book_of [contact "Ann" "12.06.1990"])
           [mkEntry (VStr (str "Ann")) (str "12.06.2024")] eq_refl
           ltac:(cbn; lia)
           (mkEntry (VStr (str "Ann")) (str "12.06.2024"))).
  left.
Defined.

Lemma loop_from_empty today users : forall acc,
  loop today acc users
  = loop today [] users ≫= fun res => Ok (acc ++ res).
Proof.
  induction users as [|u users IH]; intros acc; cbn [loop].
  - rewrite result_bind_eq, app_nil_r. reflexivity.
  - rewrite !result_bind_eq, !visit_eq.
    destruct (birthday u) as [b|].
    + destruct (candidate today b) as [c|e]; [|reflexivity].
      rewrite (IH (acc ++ _)), (IH ([] ++ _)), !result_bind_eq.
      destruct (loop today [] users); [|reflexivity].
      rewrite app_assoc. reflexivity.
    + apply IH.
Qed.

(** X11.  The report on a book made of two parts is the report on the first
    part followed by the report on the second; it raises what the first
    part raises, or else what the second does. *)
Theorem report_of_parts (today : Date.date) (d1 d2 : book) :
  get_upcoming_birthdays today (d1 ++ d2)
  = match get_upcoming_birthdays today d1 with
    | Ok res1 =>
        match get_upcoming_birthdays today d2 with
        | Ok res2 => Ok (res1 ++ res2)
        | Raise e => Raise e
        end
    | Raise e => Raise e
    end.
Proof.
  unfold get_upcoming_birthdays, values. rewrite map_app, loop_app.
  rewrite result_bind_eq.
  destruct (loop today [] (map snd d1)) as [res1|e]; [|reflexivity].
  rewrite loop_from_empty, result_bind_eq. reflexivity.
Qed.

(** ** The command handlers *)

Lemma W_bind_eq {A B} (m : Bot.W A) (k : A -> Bot.W B) w :
  (m ≫= k) w
  = match m w with
    | (Ok a, w') => k a w'
    | (Raise e, w') => (Raise e, w')
    end.
Proof. reflexivity. Qed.

Lemma keys_replace d k v : keys (Bot.replace d k v) = keys d.
Proof.
  unfold keys, Bot.replace. induction d as [|[k0 v0] d IH]; cbn; [reflexivity|].
  rewrite IH. destruct (py_eq k0 k); reflexivity.
Qed.

Lemma find_replace_eq d k v r :
  find d k = Some r -> find (Bot.replace d k v) k = Some v.
Proof.
  unfold find, get, Bot.replace.
  induction d as [|[k0 v0] d IH]; cbn; [discriminate|].
  destruct (py_eq k0 k) eqn:Hk; cbn; rewrite Hk; [reflexivity | exact IH].
Qed.

Lemma find_replace_ne d k v k' :
  k' <> k -> find (Bot.replace d k v) k' = find d k'.
Proof.
  intros Hne. unfold find, get, Bot.replace.
  induction d as [|[k0 v0] d IH]; cbn; [reflexivity|].
  destruct (py_eq k0 k) eqn:Hk; cbn.
  - apply py_eq_true in Hk. subst k0.
    assert (py_eq k k' = false) as -> by (apply py_eq_false; congruence).
    exact IH.
  - destruct (py_eq k0 k'); [reflexivity | exact IH].
Qed.

(** Writing back the record that is there changes nothing in a book
    without double keys. *)
Lemma replace_same d k r :
  NoDup (keys d) -> find d k = Some r -> Bot.replace d k r = d.
Proof.
  unfold find, get, Bot.replace, keys.
  induction d as [|[k0 v0] d IH]; cbn; intros Hnd Hf; [reflexivity|].
  apply NoDup_cons in Hnd as [Hk0 Hnd].
  destruct (py_eq k0 k) eqn:Hk; cbn in Hf.
  - injection Hf as ->. apply py_eq_true in Hk. subst k0. f_equal.
    apply replace_absent, contains_false_keys, Hk0.
  - f_equal. apply IH; assumption.
Qed.

Lemma find_app_new d k v : find d k = None -> find (d ++ [(k, v)]) k = Some v.
Proof.
  intros H. apply find_none_iff, contains_false_keys in H.
  unfold find. rewrite (get_app_absent _ _ _ H). unfold get. cbn.
  rewrite py_eq_refl. reflexivity.
Qed.

Lemma add_phone_str_cases p st :
  add_phone (VStr p) st
  = if is_isdigit_phone p
    then (Ok (),
          mkState (<[fresh (dom (store st)) := mkField (VStr p)]> (store st))
            (mkRecord (name (self st))
               (phones (self st) ++ [fresh (dom (store st))])
               (birthday (self st))))
    else (Raise phone_error, st).
Proof.
  destruct (is_isdigit_phone p) eqn:Hv.
  - apply add_phone_eq. rewrite Phone_str, Hv. reflexivity.
  - unfold add_phone. rewrite M_bind_eq. unfold pure.
    rewrite Phone_str, Hv. reflexivity.
Qed.

Lemma add_birthday_str_cases s st :
  Record.add_birthday (VStr s) st
  = if is_ok (Strptime.strptime (VStr s))
    then (Ok (),
          mkState (store st)
            (mkRecord (name (self st)) (phones (self st))
               (Some (mkField (VStr s)))))
    else (Raise birthday_error, st).
Proof.
  unfold Record.add_birthday. rewrite M_bind_eq. unfold pure.
  rewrite Birthday_str. destruct (is_ok _); reflexivity.
Qed.

(** What [edit_phone] does with two strings. *)
Lemma edit_phone_str_cases a b st :
  edit_phone (VStr a) (VStr b) st
  = match List.find (value_is (store st) (VStr a)) (phones (self st)) with
    | Some l =>
        if is_isdigit_phone b
        then (Ok (), mkState (<[l := mkField (VStr b)]> (store st)) (self st))
        else (Raise (ValueError
                       [Lit "New phone number must contain 10 digits"]), st)
    | None => (Raise (ValueError [Lit "Phone number not found."]), st)
    end.
Proof.
  destruct (List.find _ _) as [l|] eqn:Hf.
  - assert (find_phone (VStr a) st = (Ok (Some l), st)) as Hfp
      by (rewrite find_phone_eq, Hf; reflexivity).
    destruct (is_isdigit_phone b) eqn:Hv.
    + apply (edit_phone_found_valid _ _ _ _ Hfp Hv).
    + apply (edit_phone_found_invalid _ _ _ _ Hfp Hv).
  - apply edit_phone_not_found. rewrite find_phone_eq, Hf. reflexivity.
Qed.

Lemma unpack_error_is_ValueError n args :
  exists msg, Bot.unpack_error n args = ValueError msg.
Proof. unfold Bot.unpack_error. destruct (_ <? _); eexists; reflexivity. Qed.

Lemma input_error_unpack n args w :
  Bot.input_error (Bot.lift (Raise (Bot.unpack_error n args))) w
  = (Ok Bot.HELP, w).
Proof.
  destruct (unpack_error_is_ValueError n args) as [msg Hm].
  unfold Bot.input_error, Bot.lift. rewrite Hm. reflexivity.
Qed.

Lemma call_eq {A} key record (m : Record.M A) w :
  Bot.call key record m w
  = (fst (m (mkState (Bot.objects w) record)),
     Bot.mkWorld (store (snd (m (mkState (Bot.objects w) record))))
       (Bot.replace (Bot.data w) key
          (self (snd (m (mkState (Bot.objects w) record)))))).
Proof. unfold Bot.call. destruct (m _). reflexivity. Qed.

Lemma truthy_str s : truthy (VStr s) = negb (bool_decide (s = [])).
Proof. reflexivity. Qed.

Lemma init_str n :
  init (VStr n)
  = if bool_decide (n = [])
    then Raise (ValueError [Lit "Name cannot be empty"])
    else Ok (mkRecord (mkField (VStr n)) [] None).
Proof.
  unfold init, Name. rewrite truthy_str, negb_involutive.
  destruct (bool_decide (n = [])); reflexivity.
Qed.

(** [add_contact] on a name and a phone, case by case. *)
Lemma add_contact_eq nm phone w :
  Bot.add_contact [nm; phone] w
  = let l := fresh (dom (Bot.objects w)) in
    match find (Bot.data w) (VStr nm) with
    | Some r =>
        if bool_decide (phone = [])
        then (Ok (str "Contact updated."), w)
        else if is_isdigit_phone phone
        then (Ok (str "Contact updated."),
              Bot.mkWorld (<[l := mkField (VStr phone)]> (Bot.objects w))
                (Bot.replace (Bot.data w) (VStr nm)
                   (mkRecord (name r) (phones r ++ [l]) (birthday r))))
        else (Ok Bot.HELP,
              Bot.mkWorld (Bot.objects w)
                (Bot.replace (Bot.data w) (VStr nm) r))
    | None =>
        if bool_decide (nm = [])
        then (Ok Bot.HELP, w)
        else
          let r0 := mkRecord (mkField (VStr nm)) [] None in
          let d1 := add_record (Bot.data w) r0 in
          if bool_decide (phone = [])
          then (Ok (str "Contact added."), Bot.mkWorld (Bot.objects w) d1)
          else if is_isdigit_phone phone
          then (Ok (str "Contact added."),
                Bot.mkWorld (<[l := mkField (VStr phone)]> (Bot.objects w))
                  (Bot.replace d1 (VStr nm)
                     (mkRecord (mkField (VStr nm)) [l] None)))
          else (Ok Bot.HELP,
                Bot.mkWorld (Bot.objects w) (Bot.replace d1 (VStr nm) r0))
    end.
Proof.
  cbn zeta. unfold Bot.add_contact, Bot.add_contact_body, Bot.input_error.
  rewrite W_bind_eq. unfold Bot.find at 1. cbn [fst snd].
  destruct (find (Bot.data w) (VStr nm)) as [r|].
  - rewrite !W_bind_eq. cbn [mret Bot.W_ret fst snd].
    rewrite truthy_str. destruct (bool_decide (phone = [])); cbn [negb].
    + destruct w. reflexivity.
    + rewrite W_bind_eq, call_eq, add_phone_str_cases.
      destruct (is_isdigit_phone phone); reflexivity.
  - rewrite !W_bind_eq. unfold Bot.lift. rewrite init_str.
    destruct (bool_decide (nm = [])); [destruct w; reflexivity|].
    rewrite !W_bind_eq. cbn [Bot.add_record mret Bot.W_ret fst snd].
    rewrite truthy_str. destruct (bool_decide (phone = [])); cbn [negb].
    + reflexivity.
    + rewrite W_bind_eq, call_eq, add_phone_str_cases.
      destruct (is_isdigit_phone phone); reflexivity.
Qed.

Lemma change_phone_eq nm a b w :
  Bot.change_phone [nm; a; b] w
  = match find (Bot.data w) (VStr nm) with
    | Some r =>
        match List.find (value_is (Bot.objects w) (VStr a)) (phones r) with
        | Some l =>
            if is_isdigit_phone b
            then (Ok (str "Phone number for '" ++ nm ++ str "' changed."),
                  Bot.mkWorld (<[l := mkField (VStr b)]> (Bot.objects w))
                    (Bot.replace (Bot.data w) (VStr nm) r))
            else (Ok Bot.HELP,
                  Bot.mkWorld (Bot.objects w)
                    (Bot.replace (Bot.data w) (VStr nm) r))
        | None =>
            (Ok Bot.HELP,
             Bot.mkWorld (Bot.objects w) (Bot.replace (Bot.data w) (VStr nm) r))
        end
    | None => (Ok (str "Contact " ++ nm ++ str " not found."), w)
    end.
Proof.
  unfold Bot.change_phone, Bot.change_phone_body, Bot.input_error.
  rewrite W_bind_eq. unfold Bot.find at 1. cbn [fst snd].
  destruct (find (Bot.data w) (VStr nm)) as [r|];
    [|destruct w; reflexivity].
  rewrite W_bind_eq, call_eq, edit_phone_str_cases. cbn [store self].
  destruct (List.find _ _) as [l|]; [|reflexivity].
  destruct (is_isdigit_phone b); reflexivity.
Qed.

Lemma add_birthday_eq nm s w :
  Bot.add_birthday [nm; s] w
  = match find (Bot.data w) (VStr nm) with
    | Some r =>
        if is_ok (Strptime.strptime (VStr s))
        then (Ok (str "Birthday added for '" ++ nm ++ str "'."),
              Bot.mkWorld (Bot.objects w)
                (Bot.replace (Bot.data w) (VStr nm)
                   (mkRecord (name r) (phones r) (Some (mkField (VStr s))))))
        else (Ok Bot.HELP,
              Bot.mkWorld (Bot.objects w)
                (Bot.replace (Bot.data w) (VStr nm) r))
    | None => (Ok (str "Contact '" ++ nm ++ str "' not found."), w)
    end.
Proof.
  unfold Bot.add_birthday, Bot.add_birthday_body, Bot.input_error.
  rewrite W_bind_eq. unfold Bot.find at 1. cbn [fst snd].
  destruct (find (Bot.data w) (VStr nm)) as [r|];
    [|destruct w; reflexivity].
  rewrite W_bind_eq, call_eq, add_birthday_str_cases. cbn [store self].
  destruct (is_ok _); reflexivity.
Qed.

Lemma get_phone_eq nm w :
  Bot.get_phone [nm] w
  = (Ok match find (Bot.data w) (VStr nm) with
        | Some r =>
            str "Phone number for '" ++ nm ++ str "': "
            ++ Text.join (str ", ") (phone_strs (Bot.objects w) (phones r))
        | None => str "Contact " ++ nm ++ str " not found."
        end, w).
Proof.
  unfold Bot.get_phone, Bot.get_phone_body, Bot.input_error.
  rewrite W_bind_eq. unfold Bot.find at 1. cbn [fst snd].
  destruct (find (Bot.data w) (VStr nm)) as [r|]; destruct w; reflexivity.
Qed.

Lemma show_birthday_eq nm w :
  Bot.show_birthday [nm] w
  = (Ok match find (Bot.data w) (VStr nm) with
        | Some r =>
            match birthday r with
            | Some b => str "Birthday for '" ++ nm ++ str "': " ++ Field_str b
            | None =>
                str "No birthday found for '" ++ nm
                ++ str "'. Please add a birthday using 'add-birthday' command."
            end
        | None => str "No contact found for '" ++ nm ++ str "'."
        end, w).
Proof.
  unfold Bot.show_birthday, Bot.show_birthday_body, Bot.input_error.
  rewrite W_bind_eq. unfold Bot.find at 1. cbn [fst snd].
  destruct (find (Bot.data w) (VStr nm)) as [r|]; [|destruct w; reflexivity].
  destruct (birthday r); destruct w; reflexivity.
Qed.

(** X12.  Whatever words they are given, the five handlers under
    [input_error] return a text and raise nothing. *)
Theorem handlers_always_answer (args : list pystr) (w : Bot.world) :
  (exists s w', Bot.add_contact args w = (Ok s, w'))
  /\ (exists s w', Bot.change_phone args w = (Ok s, w'))
  /\ (exists s w', Bot.get_phone args w = (Ok s, w'))
  /\ (exists s w', Bot.add_birthday args w = (Ok s, w'))
  /\ (exists s w', Bot.show_birthday args w = (Ok s, w')).
Proof.
  repeat split.
  - destruct args as [|a [|b [|c args]]];
      try (eexists; eexists; apply input_error_unpack).
    rewrite add_contact_eq. cbn zeta.
    repeat match goal with
           | |- context [match ?x with _ => _ end] => destruct x
           end; eexists; eexists; reflexivity.
  - destruct args as [|a [|b [|c [|e args]]]];
      try (eexists; eexists; apply input_error_unpack).
    rewrite change_phone_eq.
    repeat match goal with
           | |- context [match ?x with _ => _ end] => destruct x
           end; eexists; eexists; reflexivity.
  - destruct args as [|a [|b args]];
      try (eexists; eexists; apply input_error_unpack).
    rewrite get_phone_eq. eexists; eexists; reflexivity.
  - destruct args as [|a [|b [|c args]]];
      try (eexists; eexists; apply input_error_unpack).
    rewrite add_birthday_eq.
    repeat match goal with
           | |- context [match ?x with _ => _ end] => destruct x
           end; eexists; eexists; reflexivity.
  - destruct args as [|a [|b args]];
      try (eexists; eexists; apply input_error_unpack).
    rewrite show_birthday_eq. eexists; eexists; reflexivity.
Qed.

(** X13.  With a wrong number of words each handler answers with the help
    text and changes nothing. *)
Theorem wrong_number_of_words (args : list pystr) (w : Bot.world) :
  (length args <> 2%nat -> Bot.add_contact args w = (Ok Bot.HELP, w))
  /\ (length args <> 3%nat -> Bot.change_phone args w = (Ok Bot.HELP, w))
  /\ (length args <> 1%nat -> Bot.get_phone args w = (Ok Bot.HELP, w))
  /\ (length args <> 2%nat -> Bot.add_birthday args w = (Ok Bot.HELP, w))
  /\ (length args <> 1%nat -> Bot.show_birthday args w = (Ok Bot.HELP, w)).
Proof.
  repeat split; intros Hl.
  - destruct args as [|a [|b [|c args]]];
      try apply input_error_unpack. contradiction Hl; reflexivity.
  - destruct args as [|a [|b [|c [|e args]]]];
      try apply input_error_unpack. contradiction Hl; reflexivity.
  - destruct args as [|a [|b args]];
      try apply input_error_unpack. contradiction Hl; reflexivity.
  - destruct args as [|a [|b [|c args]]];
      try apply input_error_unpack. contradiction Hl; reflexivity.
  - destruct args as [|a [|b args]];
      try apply input_error_unpack. contradiction Hl; reflexivity.
Qed.

Lemma isdigit_phone_not_nil p :
  is_isdigit_phone p = true -> bool_decide (p = []) = false.
Proof.
  unfold is_isdigit_phone. intros H. apply andb_true_iff in H as [Hl _].
  apply length_10_not_nil, Hl.
Qed.

Lemma add_record_new d r :
  find d (value (name r)) = None -> add_record d r = d ++ [(value (name r), r)].
Proof.
  intros H. apply find_none_iff, contains_false_keys in H.
  unfold add_record, setitem. rewrite H. reflexivity.
Qed.

Lemma replace_last d k v v' :
  find d k = None -> Bot.replace (d ++ [(k, v)]) k v' = d ++ [(k, v')].
Proof.
  intros H. apply find_none_iff, contains_false_keys in H.
  unfold Bot.replace. rewrite map_app, (replace_absent _ _ _ H). cbn.
  rewrite py_eq_refl. reflexivity.
Qed.

Lemma add_contact_new_world (w : Bot.world) (nm phone : pystr) :
  nm <> [] ->
  find (Bot.data w) (VStr nm) = None ->
  is_isdigit_phone phone = true ->
  Bot.add_contact [nm; phone] w
  = (Ok (str "Contact added."),
     Bot.mkWorld
       (<[fresh (dom (Bot.objects w)) := mkField (VStr phone)]> (Bot.objects w))
       (Bot.data w
        ++ [(VStr nm,
             mkRecord (mkField (VStr nm)) [fresh (dom (Bot.objects w))] None)])).
Proof.
  intros Hnm Hfind Hphone.
  rewrite add_contact_eq. cbn zeta.
  rewrite Hfind, (bool_decide_eq_false_2 _ Hnm),
    (isdigit_phone_not_nil _ Hphone), Hphone.
  rewrite (add_record_new (Bot.data w) (mkRecord (mkField (VStr nm)) [] None))
    by exact Hfind.
  cbn [value name]. rewrite (replace_last _ _ _ _ Hfind). reflexivity.
Qed.

(** X14.  [add] with a new name, which is not empty, and a phone that [Phone]
    accepts: the answer is "Contact added.", the contact is the last
    entry of the book, with the phone as its only slot, a new object;
    and [phone] with the name answers with the phone. *)
Theorem add_contact_new (w : Bot.world) (nm phone : pystr) :
  nm <> [] ->
  find (Bot.data w) (VStr nm) = None ->
  is_isdigit_phone phone = true ->
  exists l w',
    Bot.add_contact [nm; phone] w = (Ok (str "Contact added."), w')
    /\ Bot.objects w !! l = None
    /\ Bot.objects w' = <[l := mkField (VStr phone)]> (Bot.objects w)
    /\ Bot.data w'
       = Bot.data w ++ [(VStr nm, mkRecord (mkField (VStr nm)) [l] None)]
    /\ Bot.get_phone [nm] w'
       = (Ok (str "Phone number for '" ++ nm ++ str "': " ++ phone), w').
Proof.
  intros Hnm Hfind Hphone.
  exists (fresh (dom (Bot.objects w))). eexists.
  split; [apply (add_contact_new_world w nm phone Hnm Hfind Hphone)|].
  cbn [Bot.objects Bot.data].
  split; [apply not_elem_of_dom, is_fresh|].
  split; [reflexivity|]. split; [reflexivity|].
  rewrite get_phone_eq. cbn [Bot.objects Bot.data].
  rewrite (find_app_new _ _ _ Hfind). cbn [phones].
  unfold phone_strs. cbn [omap list_omap].
  rewrite lookup_insert_eq. reflexivity.
Qed.

(** Ann is added with the phone 1111111111. *)
Lemma add_contact_new_witness :
  exists w',
    Bot.add_contact [str "Ann"; s1111] w_empty = (Ok (str "Contact added."), w')
    /\ Bot.get_phone [str "Ann"] w'
       = (Ok (str "Phone number for 'Ann': 1111111111"), w').
Proof.
  destruct (add_contact_new w_empty (str "Ann") s1111)
    as (l & w' & Ha & _ & _ & _ & Hg); [discriminate | reflexivity..|].
  exists w'. split; [exact Ha | exact Hg].
Defined.

(** X15.  [add] with the name of a contact and a phone that [Phone] accepts:
    the answer is "Contact updated.", the phone becomes the last slot of
    the contact, a new object, also when the contact holds the number
    already; the keys keep their order and the other contacts are found
    as before. *)
Theorem add_contact_existing (w : Bot.world) (nm phone : pystr)
    (r : RecordObj) :
  find (Bot.data w) (VStr nm) = Some r ->
  is_isdigit_phone phone = true ->
  exists l w',
    Bot.add_contact [nm; phone] w = (Ok (str "Contact updated."), w')
    /\ Bot.objects w !! l = None
    /\ Bot.objects w' = <[l := mkField (VStr phone)]> (Bot.objects w)
    /\ find (Bot.data w') (VStr nm)
       = Some (mkRecord (name r) (phones r ++ [l]) (birthday r))
    /\ keys (Bot.data w') = keys (Bot.data w)
    /\ (forall n', n' <> VStr nm ->
          find (Bot.data w') n' = find (Bot.data w) n').
Proof.
  intros Hfind Hphone.
  exists (fresh (dom (Bot.objects w))). eexists.
  rewrite add_contact_eq. cbn zeta.
  rewrite Hfind, (isdigit_phone_not_nil _ Hphone), Hphone.
  split; [reflexivity|]. cbn [Bot.objects Bot.data].
  split; [apply not_elem_of_dom, is_fresh|].
  split; [reflexivity|].
  split; [apply (find_replace_eq _ _ _ _ Hfind)|].
  split; [apply keys_replace|].
  intros n' Hn'. apply find_replace_ne, Hn'.
Qed.

(** Ann gets her number a second time. *)
Lemma add_contact_existing_witness :
  exists l w',
    Bot.add_contact [str "Ann"; s1111] w_ann = (Ok (str "Contact updated."), w')
    /\ find (Bot.data w') (VStr (str "Ann"))
       = Some (mkRecord (mkField (VStr (str "Ann"))) [1%positive; l] None).
Proof.
  destruct (add_contact_existing w_ann (str "Ann") s1111
              (mkRecord (mkField (VStr (str "Ann"))) [1%positive] None)
              eq_refl eq_refl) as (l & w' & Ha & _ & _ & Hf & _).
  exists l, w'. split; [exact Ha | exact Hf].
Defined.

(** X16.  [add] with a new name and a phone that [Phone] turns down answers
    with the help text, and the contact is in the book all the same,
    without a phone: the record was added before the phone was
    checked. *)
Theorem add_contact_bad_phone_keeps_contact (w : Bot.world)
    (nm phone : pystr) :
  nm <> [] ->
  find (Bot.data w) (VStr nm) = None ->
  phone <> [] ->
  is_isdigit_phone phone = false ->
  Bot.add_contact [nm; phone] w
  = (Ok Bot.HELP,
     Bot.mkWorld (Bot.objects w)
       (Bot.data w ++ [(VStr nm, mkRecord (mkField (VStr nm)) [] None)])).
Proof.
  intros Hnm Hfind Hne Hphone.
  rewrite add_contact_eq. cbn zeta.
  rewrite Hfind, (bool_decide_eq_false_2 _ Hnm),
    (bool_decide_eq_false_2 _ Hne), Hphone.
  rewrite (add_record_new (Bot.data w) (mkRecord (mkField (VStr nm)) [] None))
    by exact Hfind.
  cbn [value name]. rewrite (replace_last _ _ _ _ Hfind). reflexivity.
Qed.

(** [add Bob 12345]: the help text, and Bob is a contact. *)
Lemma add_contact_bad_phone_keeps_contact_witness :
  exists w',
    Bot.add_contact [str "Bob"; str "12345"] w_ann = (Ok Bot.HELP, w')
    /\ keys (Bot.data w') = [VStr (str "Ann"); VStr (str "Bob")].
Proof.
  eexists. split.
  - apply (add_contact_bad_phone_keeps_contact w_ann (str "Bob") (str "12345"));
      (discriminate || reflexivity).
  - reflexivity.
Defined.

(** X17.  [change]: for a name that is no contact the answer says so and
    nothing changes.  For a contact of a book without double keys, the
    first slot with the old phone takes a new phone of ten digits, and
    nothing else changes; without such a slot, or with another new
    phone, the answer is the help text and nothing changes. *)
Theorem change_phone_cases (w : Bot.world) (nm a b : pystr) :
  (find (Bot.data w) (VStr nm) = None ->
   Bot.change_phone [nm; a; b] w
   = (Ok (str "Contact " ++ nm ++ str " not found."), w))
  /\ (forall r l,
        NoDup (keys (Bot.data w)) ->
        find (Bot.data w) (VStr nm) = Some r ->
        fst (find_phone (VStr a) (mkState (Bot.objects w) r)) = Ok (Some l) ->
        is_isdigit_phone b = true ->
        Bot.change_phone [nm; a; b] w
        = (Ok (str "Phone number for '" ++ nm ++ str "' changed."),
           Bot.mkWorld (<[l := mkField (VStr b)]> (Bot.objects w))
             (Bot.data w)))
  /\ (forall r,
        NoDup (keys (Bot.data w)) ->
        find (Bot.data w) (VStr nm) = Some r ->
        fst (find_phone (VStr a) (mkState (Bot.objects w) r)) = Ok None
        \/ is_isdigit_phone b = false ->
        Bot.change_phone [nm; a; b] w = (Ok Bot.HELP, w)).
Proof.
  split; [|split].
  - intros Hfind. rewrite change_phone_eq, Hfind. reflexivity.
  - intros r l Hnd Hfind Hslot Hb.
    rewrite find_phone_eq in Hslot. cbn [fst store self] in Hslot.
    injection Hslot as Hslot.
    rewrite change_phone_eq, Hfind, Hslot, Hb, (replace_same _ _ _ Hnd Hfind).
    reflexivity.
  - intros r Hnd Hfind Hbad.
    rewrite change_phone_eq, Hfind, (replace_same _ _ _ Hnd Hfind).
    rewrite find_phone_eq in Hbad. cbn [fst store self] in Hbad.
    destruct (List.find _ _) as [l|].
    + destruct Hbad as [Hbad | ->]; [discriminate|]. destruct w. reflexivity.
    + destruct w. reflexivity.
Qed.

(** Ann's phone is changed; a phone that she has not is not. *)
Lemma change_phone_cases_witness :
  Bot.change_phone [str "Ann"; s1111; s2222] w_ann
  = (Ok (str "Phone number for 'Ann' changed."),
     Bot.mkWorld (<[1%positive := mkField (VStr s2222)]> (Bot.objects w_ann))
       (Bot.data w_ann))
  /\ Bot.change_phone [str "Ann"; s2222; s1111] w_ann = (Ok Bot.HELP, w_ann)
  /\ Bot.change_phone [str "Bob"; s1111; s2222] w_ann
     = (Ok (str "Contact Bob not found."), w_ann).
Proof.
  destruct (change_phone_cases w_ann (str "Ann") s1111 s2222) as (_ & Hok & _).
  split.
  { apply (Hok (mkRecord (mkField (VStr (str "Ann"))) [1%positive] None));
      [apply NoDup_singleton | reflexivity..]. }
  destruct (change_phone_cases w_ann (str "Ann") s2222 s1111) as (_ & _ & Hbad).
  split.
  { apply (Hbad (mkRecord (mkField (VStr (str "Ann"))) [1%positive] None));
      [apply NoDup_singleton | reflexivity | left; reflexivity]. }
  destruct (change_phone_cases w_ann (str "Bob") s1111 s2222) as (Hnone & _).
  apply Hnone. reflexivity.
Defined.

(** X18.  [add-birthday] for a contact with a date that [Birthday] accepts
    stores the date in place of any earlier one and leaves the phones;
    [show-birthday] then answers with the date as it was typed.  With a
    date that [Birthday] turns down the answer is the help text, and in
    a book without double keys nothing changes. *)
Theorem birthday_added_is_shown (w : Bot.world) (nm s : pystr)
    (r : RecordObj) :
  find (Bot.data w) (VStr nm) = Some r ->
  (is_ok (Birthday (VStr s)) = true ->
   exists w',
     Bot.add_birthday [nm; s] w
     = (Ok (str "Birthday added for '" ++ nm ++ str "'."), w')
     /\ Bot.objects w' = Bot.objects w
     /\ find (Bot.data w') (VStr nm)
        = Some (mkRecord (name r) (phones r) (Some (mkField (VStr s))))
     /\ (forall n', n' <> VStr nm ->
           find (Bot.data w') n' = find (Bot.data w) n')
     /\ Bot.show_birthday [nm] w'
        = (Ok (str "Birthday for '" ++ nm ++ str "': " ++ s), w'))
  /\ (is_ok (Birthday (VStr s)) = false ->
      NoDup (keys (Bot.data w)) ->
      Bot.add_birthday [nm; s] w = (Ok Bot.HELP, w)).
Proof.
  intros Hfind. split.
  - intros Hok. rewrite Birthday_ok_strptime in Hok.
    eexists. rewrite add_birthday_eq, Hfind, Hok.
    split; [reflexivity|]. cbn [Bot.objects Bot.data].
    split; [reflexivity|].
    split; [apply (find_replace_eq _ _ _ _ Hfind)|].
    split; [intros n' Hn'; apply find_replace_ne, Hn'|].
    rewrite show_birthday_eq. cbn [Bot.objects Bot.data].
    rewrite (find_replace_eq _ _ _ _ Hfind). reflexivity.
  - intros Hbad Hnd. rewrite Birthday_ok_strptime in Hbad.
    rewrite add_birthday_eq, Hfind, Hbad, (replace_same _ _ _ Hnd Hfind).
    destruct w. reflexivity.
Qed.

(** Ann's birthday is stored and shown; the 31st of April is not. *)
Lemma birthday_added_is_shown_witness :
  (exists w',
     Bot.add_birthday [str "Ann"; str "12.06.1990"] w_ann
     = (Ok (str "Birthday added for 'Ann'."), w')
     /\ Bot.show_birthday [str "Ann"] w'
        = (Ok (str "Birthday for 'Ann': 12.06.1990"), w'))
  /\ Bot.add_birthday [str "Ann"; str "31.04.2020"] w_ann = (Ok Bot.HELP, w_ann).
Proof.
  split.
  - destruct (birthday_added_is_shown w_ann (str "Ann") (str "12.06.1990")
                (mkRecord (mkField (VStr (str "Ann"))) [1%positive] None)
                eq_refl) as [Hok _].
    destruct (Hok eq_refl) as (w' & Ha & _ & _ & _ & Hs).
    exists w'. split; [exact Ha | exact Hs].
  - destruct (birthday_added_is_shown w_ann (str "Ann") (str "31.04.2020")
                (mkRecord (mkField (VStr (str "Ann"))) [1%positive] None)
                eq_refl) as [_ Hbad].
    apply Hbad; [reflexivity | apply NoDup_singleton].
Defined.

(** ** Command lines *)

Lemma split_from_words s : forall acc,
  (forall c, In c acc -> Text.isspace_char c = false) ->
  forall w, In w (Text.split_from acc s) ->
            w <> [] /\ (forall c, In c w -> Text.isspace_char c = false).
Proof.
  induction s as [|c s IH]; intros acc Hacc w; cbn [Text.split_from].
  - destruct (bool_decide _) eqn:He; [intros Hnil; destruct Hnil|].
    intros [<-|[]]. apply bool_decide_eq_false in He. auto.
  - destruct (Text.isspace_char c) eqn:Hc.
    + destruct (bool_decide _) eqn:He.
      * apply IH. intros ? Hnil; destruct Hnil.
      * intros [<-|Hw].
        -- apply bool_decide_eq_false in He. auto.
        -- revert Hw. apply IH. intros ? Hnil; destruct Hnil.
    + apply IH. intros x Hx. apply in_app_or in Hx as [Hx|[<-|[]]]; auto.
Qed.

Lemma split_from_started t : forall acc,
  acc <> [] -> Text.split_from acc t <> [].
Proof.
  induction t as [|c t IH]; intros acc Hacc; cbn [Text.split_from].
  - destruct (bool_decide _) eqn:He; [|discriminate].
    apply bool_decide_eq_true in He. contradiction.
  - destruct (Text.isspace_char c).
    + destruct (bool_decide _) eqn:He; [|discriminate].
      apply bool_decide_eq_true in He. contradiction.
    + apply IH. destruct acc; discriminate.
Qed.

Lemma split_from_blank s :
  (forall c, In c s -> Text.isspace_char c = true) <->
  Text.split_from [] s = [].
Proof.
  split.
  - induction s as [|c s IH]; intros H; cbn [Text.split_from]; [reflexivity|].
    rewrite (H c) by (left; reflexivity).
    rewrite bool_decide_eq_true_2 by reflexivity. apply IH.
    intros x Hx. apply H. right. exact Hx.
  - induction s as [|c s IH]; cbn [Text.split_from];
      [intros _ ? Hnil; destruct Hnil|].
    destruct (Text.isspace_char c) eqn:Hc.
    + rewrite bool_decide_eq_true_2 by reflexivity.
      intros H x [<-|Hx]; [exact Hc | apply IH; assumption].
    + intros H. exfalso.
      apply (split_from_started s ([] ++ [c])); [discriminate | exact H].
Qed.

Lemma parse_input_blank (lower : pystr -> pystr) (line : pystr) :
  (forall c, In c line -> Text.isspace_char c = true) <->
  Bot.parse_input lower line
  = Raise (ValueError
             [Lit "not enough values to unpack (expected at least 1, got 0)"]).
Proof.
  unfold Bot.parse_input, Text.split. rewrite split_from_blank.
  destruct (Text.split_from [] line); split; congruence.
Qed.

(** X19.  [parse_input] raises exactly on a line that is empty or all
    whitespace, and it raises the [ValueError] of the unpacking; the
    words that it returns as arguments are never empty and hold no
    whitespace. *)
Theorem parse_input_words (lower : pystr -> pystr) (line : pystr) :
  ((forall c, In c line -> Text.isspace_char c = true) <->
   Bot.parse_input lower line
   = Raise (ValueError
              [Lit "not enough values to unpack (expected at least 1, got 0)"]))
  /\ (forall cmd args,
        Bot.parse_input lower line = Ok (cmd, args) ->
        forall a, In a args ->
          a <> [] /\ (forall c, In c a -> Text.isspace_char c = false)).
Proof.
  split; [apply parse_input_blank|].
  unfold Bot.parse_input, Text.split.
  intros cmd args H a Ha.
  destruct (Text.split_from [] line) as [|c0 rest] eqn:Hs; [discriminate|].
  injection H as _ <-.
  apply (split_from_words line []); [intros ? Hnil; destruct Hnil|].
  rewrite Hs. right. exact Ha.
Qed.

(** The words of [change Ann 1111111111 2222222222]. *)
Lemma parse_input_words_witness :
  Bot.parse_input Text.ascii_lower (str "change Ann 1111111111 2222222222")
  = Ok (str "change", [str "Ann"; s1111; s2222])
  /\ s1111 <> [] /\ Text.isspace_char 49 = false.
Proof.
  split; [reflexivity|].
  destruct (parse_input_words Text.ascii_lower
              (str "change Ann 1111111111 2222222222")) as [_ H].
  destruct (H (str "change") [str "Ann"; s1111; s2222] eq_refl s1111)
    as [Hne Hc]; [right; left; reflexivity|].
  split; [exact Hne | apply Hc; left; reflexivity].
Defined.

Lemma split_from_word w : forall acc s,
  (forall c, In c w -> Text.isspace_char c = false) ->
  Text.split_from acc (w ++ s) = Text.split_from (acc ++ w) s.
Proof.
  induction w as [|c w IH]; intros acc s Hw; cbn [app Text.split_from].
  - rewrite app_nil_r. reflexivity.
  - rewrite (Hw c) by (left; reflexivity).
    rewrite IH by (intros x Hx; apply Hw; right; exact Hx).
    rewrite <- app_assoc. reflexivity.
Qed.

Lemma split_join words :
  (forall w, In w words ->
     w <> [] /\ (forall c, In c w -> Text.isspace_char c = false)) ->
  Text.split (Text.join [32] words) = words.
Proof.
  unfold Text.split. induction words as [|w words IH]; intros H;
    [reflexivity|].
  destruct (H w (or_introl eq_refl)) as [Hne Hw].
  assert (Text.split_from [] (Text.join [32] words) = words) as IH'
    by (apply IH; intros x Hx; apply H; right; exact Hx).
  destruct words as [|w' words].
  - cbn [Text.join]. pose proof (split_from_word w [] [] Hw) as E.
    rewrite app_nil_r in E. rewrite E. cbn [app Text.split_from].
    rewrite bool_decide_eq_false_2 by exact Hne. reflexivity.
  - change (Text.join [32] (w :: w' :: words))
      with (w ++ [32] ++ Text.join [32] (w' :: words)).
    rewrite split_from_word by exact Hw. cbn [app Text.split_from].
    assert (Text.isspace_char 32 = true) as -> by reflexivity.
    rewrite bool_decide_eq_false_2 by exact Hne. rewrite IH'. reflexivity.
Qed.

Lemma strip_left_word w :
  (forall c, In c w -> Text.isspace_char c = false) -> Text.strip_left w = w.
Proof.
  destruct w as [|c w]; [reflexivity|]. intros H. cbn [Text.strip_left].
  rewrite (H c) by (left; reflexivity). reflexivity.
Qed.

Lemma strip_word w :
  (forall c, In c w -> Text.isspace_char c = false) -> Text.strip w = w.
Proof.
  intros H. unfold Text.strip. rewrite (strip_left_word w H).
  rewrite strip_left_word; [apply rev_involutive|].
  intros c Hc. apply H, in_rev, Hc.
Qed.

(** X20.  A command word and argument words, none of them empty or with
    whitespace, joined by single spaces, are parsed into the command
    word, lowered, and the argument words as they are. *)
Theorem parse_input_of_words (lower : pystr -> pystr)
    (cmd : pystr) (args : list pystr) :
  (forall w, In w (cmd :: args) ->
     w <> [] /\ (forall c, In c w -> Text.isspace_char c = false)) ->
  Bot.parse_input lower (Text.join [32] (cmd :: args)) = Ok (lower cmd, args).
Proof.
  intros H. unfold Bot.parse_input. rewrite (split_join _ H).
  rewrite strip_word; [reflexivity|].
  apply (H cmd). left. reflexivity.
Qed.

(** [ADD Ann 1111111111], with the lowering of ASCII letters. *)
Lemma parse_input_of_words_witness :
  Bot.parse_input Text.ascii_lower (str "ADD Ann 1111111111")
  = Ok (str "add", [str "Ann"; s1111]).
Proof.
  apply (parse_input_of_words Text.ascii_lower (str "ADD") [str "Ann"; s1111]).
  intros w [<-|[<-|[<-|[]]]]; (split; [discriminate|]);
    intros c Hc; cbn in Hc;
    repeat (destruct Hc as [<-|Hc]; [reflexivity|]); destruct Hc.
Defined.

(** ** Sessions *)

(** X21.  A line that is empty or all whitespace ends the session with the
    [ValueError] of [parse_input], which nothing catches: the lines
    after it are not read and the book is not saved. *)
Theorem blank_line_ends_session (lower : pystr -> pystr) (today : Date.date)
    (line : pystr) (rest : list pystr) (w : Bot.world)
    (printed : list pystr) :
  (forall c, In c line -> Text.isspace_char c = true) ->
  Bot.loop lower today (line :: rest) w printed
  = (printed,
     Bot.Uncaught
       (ValueError
          [Lit "not enough values to unpack (expected at least 1, got 0)"]) w).
Proof.
  intros H. cbn [Bot.loop].
  rewrite (proj1 (parse_input_blank lower line) H). reflexivity.
Qed.

(** A line of three spaces. *)
Lemma blank_line_ends_session_witness :
  Bot.main Text.ascii_lower (Date.mkDate 2024 6 10) w_ann
    [str "   "; str "exit"]
  = ([str "Welcome to the assistant bot!"],
     Bot.Uncaught
       (ValueError
          [Lit "not enough values to unpack (expected at least 1, got 0)"])
       w_ann).
Proof.
  apply blank_line_ends_session.
  intros c Hc. cbn in Hc.
  repeat (destruct Hc as [<-|Hc]; [reflexivity|]). destruct Hc.
Defined.

Lemma loop_exit (lower : pystr -> pystr) (today : Date.date)
    (line cmd : pystr) (args rest : list pystr) (w : Bot.world)
    (printed : list pystr) :
  Bot.parse_input lower line = Ok (cmd, args) ->
  cmd = str "close" \/ cmd = str "exit" ->
  Bot.loop lower today (line :: rest) w printed
  = (printed ++ [str "Good bye!"], Bot.Saved w).
Proof.
  intros Hp Hc. cbn [Bot.loop]. rewrite Hp.
  destruct Hc as [-> | ->]; reflexivity.
Qed.

Lemma answer_stays {h : Bot.W pystr} {w r w'} :
  (h ≫= fun s => mret (false, s)) w = (r, w') ->
  snd (h w) = w' /\ forall s, r <> Ok (true, s).
Proof.
  rewrite W_bind_eq. destruct (h w) as [[s|e] w1]; intros [= <- <-];
    (split; [reflexivity | discriminate]).
Qed.

(** Only [close] and [exit] leave the loop. *)
Lemma command_leaves today cmd args w s w' :
  Bot.command today cmd args w = (Ok (true, s), w') ->
  (cmd = str "close" \/ cmd = str "exit") /\ s = str "Good bye!" /\ w' = w.
Proof.
  unfold Bot.command.
  destruct (bool_decide (cmd = str "close")) eqn:H1.
  { apply bool_decide_eq_true in H1. cbn. intros [= <- <-]. auto. }
  destruct (bool_decide (cmd = str "exit")) eqn:H2.
  { apply bool_decide_eq_true in H2. cbn. intros [= <- <-]. auto. }
  cbn [orb].
  repeat match goal with
         | |- context [if bool_decide ?P then _ else _] =>
             destruct (bool_decide P)
         end;
    intros H;
    first [ discriminate H
          | apply answer_stays in H as [_ H]; exact (False_ind _ (H s eq_refl)) ].
Qed.

(** X22.  A line whose command is [close] or [exit] prints "Good bye!" and
    ends the session with the book saved as it is, and the lines after
    it are not read; and a session ends with the book saved only after
    such a line, with "Good bye!" as the last text printed. *)
Theorem saved_by_exit_only (lower : pystr -> pystr) (today : Date.date) :
  (forall line cmd args rest w printed,
     Bot.parse_input lower line = Ok (cmd, args) ->
     cmd = str "close" \/ cmd = str "exit" ->
     Bot.loop lower today (line :: rest) w printed
     = (printed ++ [str "Good bye!"], Bot.Saved w))
  /\ (forall lines w printed printed' w',
        Bot.loop lower today lines w printed = (printed', Bot.Saved w') ->
        exists before line after cmd args mid,
          lines = before ++ line :: after
          /\ Bot.parse_input lower line = Ok (cmd, args)
          /\ (cmd = str "close" \/ cmd = str "exit")
          /\ printed' = mid ++ [str "Good bye!"]).
Proof.
  split; [intros; eapply loop_exit; eassumption|].
  induction lines as [|line lines IH]; intros w printed printed' w';
    cbn [Bot.loop]; [discriminate|].
  destruct (Bot.parse_input lower line) as [[cmd args]|] eqn:Hp;
    [|discriminate].
  destruct (Bot.command today cmd args w) as [[[[|] s]|e] w1] eqn:Hc;
    [| |discriminate].
  - intros [= <- <-]. apply command_leaves in Hc as (Hcmd & -> & _).
    exists [], line, lines, cmd, args, printed. auto.
  - intros H. apply IH in H
      as (before & l & after & c & a & mid & -> & H1 & H2 & H3).
    exists (line :: before), l, after, c, a, mid. auto.
Qed.

(** After [EXIT] the session is over. *)
Lemma saved_by_exit_only_witness :
  Bot.main Text.ascii_lower (Date.mkDate 2024 6 10) w_ann
    [str "EXIT"; str "add Bob 2222222222"]
  = ([str "Welcome to the assistant bot!"; str "Good bye!"], Bot.Saved w_ann).
Proof.
  destruct (saved_by_exit_only Text.ascii_lower (Date.mkDate 2024 6 10))
    as [H _].
  apply (H (str "EXIT") (str "exit") []); [reflexivity | right; reflexivity].
Defined.

Lemma get_phone_world args w : snd (Bot.get_phone args w) = w.
Proof.
  destruct args as [|a [|b args]];
    try apply (f_equal snd (input_error_unpack 1 _ w)).
  rewrite get_phone_eq. reflexivity.
Qed.

Lemma show_birthday_world args w : snd (Bot.show_birthday args w) = w.
Proof.
  destruct args as [|a [|b args]];
    try apply (f_equal snd (input_error_unpack 1 _ w)).
  rewrite show_birthday_eq. reflexivity.
Qed.

Lemma birthdays_world today w : snd (Bot.birthdays today w) = w.
Proof.
  unfold Bot.birthdays.
  destruct (get_upcoming_birthdays today (Bot.data w)); reflexivity.
Qed.

(** X23.  No command but [add], [change] and [add-birthday] changes the book
    or a [Phone] object, whatever its words are and whether it answers
    or raises; and a command that is none of the ten prints "Invalid
    command." and the session goes on. *)
Theorem other_commands_change_nothing (lower : pystr -> pystr)
    (today : Date.date) (cmd : pystr) (args : list pystr) (w : Bot.world) :
  (cmd <> str "add" -> cmd <> str "change" -> cmd <> str "add-birthday" ->
   snd (Bot.command today cmd args w) = w)
  /\ (~ In cmd [str "close"; str "exit"; str "hello"; str "add"; str "change";
                str "phone"; str "all"; str "add-birthday";
                str "show-birthday"; str "birthdays"] ->
      forall line rest printed,
        Bot.parse_input lower line = Ok (cmd, args) ->
        Bot.loop lower today (line :: rest) w printed
        = Bot.loop lower today rest w (printed ++ [str "Invalid command."])).
Proof.
  split.
  - intros Hadd Hchange Hbirthday. unfold Bot.command.
    repeat match goal with
           | |- context [bool_decide ?P] =>
               let H := fresh "H" in
               destruct (bool_decide P) eqn:H;
               [apply bool_decide_eq_true in H | clear H]
           end; cbn [orb]; try contradiction; try reflexivity;
      rewrite W_bind_eq;
      first [ pose proof (get_phone_world args w) as Hw;
              destruct (Bot.get_phone args w) as [[?|?] ?]; exact Hw
            | pose proof (show_birthday_world args w) as Hw;
              destruct (Bot.show_birthday args w) as [[?|?] ?]; exact Hw
            | pose proof (birthdays_world today w) as Hw;
              destruct (Bot.birthdays today w) as [[?|?] ?]; exact Hw ].
  - intros Hnot line rest printed Hp. cbn [Bot.loop]. rewrite Hp.
    unfold Bot.command.
    repeat match goal with
           | |- context [bool_decide ?P] =>
               rewrite (bool_decide_eq_false_2 P)
                 by (intros ->; apply Hnot; cbn; tauto)
           end.
    reflexivity.
Qed.

(** [phone Ann] changes nothing, and [hi] is no command. *)
Lemma other_commands_change_nothing_witness :
  snd (Bot.command (Date.mkDate 2024 6 10) (str "phone") [str "Ann"] w_ann)
  = w_ann
  /\ Bot.main Text.ascii_lower (Date.mkDate 2024 6 10) w_ann
       [str "hi"; str "close"]
     = ([str "Welcome to the assistant bot!"; str "Invalid command.";
         str "Good bye!"], Bot.Saved w_ann).
Proof.
  split.
  - destruct (other_commands_change_nothing Text.ascii_lower
                (Date.mkDate 2024 6 10) (str "phone") [str "Ann"] w_ann)
      as [H _].
    apply H; discriminate.
  - destruct (other_commands_change_nothing Text.ascii_lower
                (Date.mkDate 2024 6 10) (str "hi") [] w_ann) as [_ H].
    unfold Bot.main. rewrite (H ltac:(cbn; intuition discriminate)
                                (str "hi") [str "close"] _ eq_refl).
    reflexivity.
Defined.

(** X24.  The command [birthdays] has no [input_error] around it.  In a book
    whose stored birthdays all passed [Birthday] and which holds a
    birthday of a 29th of February, in a year that is no leap year, the
    command ends the session with the date error of the report: the
    lines after it are not read and the book is not saved. *)
Theorem birthdays_ends_session (lower : pystr -> pystr) (today : Date.date)
    (line : pystr) (args rest : list pystr) (w : Bot.world)
    (printed : list pystr) (r : RecordObj) (b : Field) (y : Z) :
  Bot.parse_input lower line = Ok (str "birthdays", args) ->
  valid_date today = true ->
  (forall r' b', r' ∈ values (Bot.data w) -> birthday r' = Some b' ->
                 is_ok (Birthday (value b')) = true) ->
  r ∈ values (Bot.data w) ->
  birthday r = Some b ->
  Strptime.strptime (value b) = Ok (Date.mkDate y 2 29) ->
  Date.is_leap (Date.year today) = false ->
  Bot.loop lower today (line :: rest) w printed
  = (printed, Bot.Uncaught date_error w).
Proof.
  intros Hp Ht Hwf Hr Hb Hdt Hleap. cbn [Bot.loop]. rewrite Hp.
  assert (Bot.command today (str "birthdays") args w = (Raise date_error, w))
    as ->; [|reflexivity].
  change (Bot.command today (str "birthdays") args w)
    with ((Bot.birthdays today ≫= fun s => mret (false, s)) w).
  rewrite W_bind_eq. unfold Bot.birthdays, get_upcoming_birthdays.
  rewrite (loop_raises_date_error today (values (Bot.data w)) r b y []
             Ht Hwf Hr Hb Hdt Hleap).
  reflexivity.
Qed.

(** Bob was born on 29.02.2000; [birthdays] on 10.06.2023. *)
Lemma birthdays_ends_session_witness :
  Bot.main Text.ascii_lower (Date.mkDate 2023 6 10) w_bob
    [str "birthdays"; str "exit"]
  = ([str "Welcome to the assistant bot!"], Bot.Uncaught date_error w_bob).
Proof.
  apply (birthdays_ends_session Text.ascii_lower (Date.mkDate 2023 6 10)
           (str "birthdays") [] [str "exit"] w_bob
           [str "Welcome to the assistant bot!"]
           (mkRecord (mkField (VStr (str "Bob"))) [2%positive]
              (Some (mkField (VStr (str "29.02.2000")))))
           (mkField (VStr (str "29.02.2000"))) 2000).
  - reflexivity.
  - reflexivity.
  - intros r' b' Hr' Hb'.
    apply elem_of_cons in Hr' as [->|Hr'];
      [discriminate Hb'|apply list_elem_of_singleton in Hr' as ->].
    injection Hb' as <-. reflexivity.
  - right. left.
  - reflexivity.
  - reflexivity.
  - reflexivity.
Defined.

(** Three words for [add] and none for [phone]. *)
Lemma wrong_number_of_words_witness :
  Bot.add_contact [str "Ann"; s1111; s2222] w_ann = (Ok Bot.HELP, w_ann)
  /\ Bot.get_phone [] w_ann = (Ok Bot.HELP, w_ann).
Proof.
  destruct (wrong_number_of_words [str "Ann"; s1111; s2222] w_ann) as (H & _).
  split; [apply H; discriminate|].
  destruct (wrong_number_of_words [] w_ann) as (_ & _ & H' & _).
  apply H'. discriminate.
Defined.

(** ** The list of all contacts *)

(** A text that neither begins nor ends with whitespace, with a
    newline after it, is stripped to itself. *)
Lemma strip_line (s : pystr) c e :
  head s = Some c -> last s = Some e ->
  Text.isspace_char c = false -> Text.isspace_char e = false ->
  Text.strip (s ++ [10]) = s.
Proof.
  intros Hh Hl Hc He. unfold Text.strip.
  destruct s as [|c' t]; [discriminate|]. injection Hh as ->.
  cbn [app Text.strip_left]. rewrite Hc.
  apply last_Some in Hl as [s' Hs'].
  change (c :: t ++ [10]) with ((c :: t) ++ [10]).
  rewrite Hs', rev_app_distr, rev_app_distr.
  cbn [rev app Text.strip_left].
  assert (Text.isspace_char 10 = true) as -> by reflexivity.
  rewrite He.
  change (rev (e :: rev s')) with (rev (rev s') ++ [e]).
  rewrite rev_involutive. reflexivity.
Qed.

(** X25.  For a book without contacts [all] says so.  After [add] with a name
    that does not begin with whitespace and a phone that [Phone]
    accepts, for a book without contacts, [all] answers with one line:
    the name, and the record with the name, the phone and no
    birthday. *)
Theorem first_contact_is_listed (w : Bot.world) :
  Bot.data w = [] ->
  Bot.show_all w
  = (Ok (str "No contacts available, you need to (add " ++ Bot.dq
         ++ str "username" ++ Bot.dq ++ str " " ++ Bot.dq ++ str "phone"
         ++ Bot.dq ++ str ")"), w)
  /\ (forall (c : Z) (nm phone : pystr),
        Text.isspace_char c = false ->
        is_isdigit_phone phone = true ->
        Bot.show_all (snd (Bot.add_contact [c :: nm; phone] w))
        = (Ok (c :: nm ++ str ": " ++ str "Contact name: " ++ (c :: nm)
               ++ str ", phone: " ++ phone ++ str ", birthdate: "
               ++ str "None"),
           snd (Bot.add_contact [c :: nm; phone] w))).
Proof.
  intros Hd. split.
  - unfold Bot.show_all. rewrite Hd. reflexivity.
  - intros c nm phone Hc Hphone.
    assert (Bot.add_contact [c :: nm; phone] w
            = (Ok (str "Contact added."),
               Bot.mkWorld
                 (<[fresh (dom (Bot.objects w)) := mkField (VStr phone)]>
                    (Bot.objects w))
                 (Bot.data w
                  ++ [(VStr (c :: nm),
                       mkRecord (mkField (VStr (c :: nm)))
                         [fresh (dom (Bot.objects w))] None)]))) as ->
      by (apply add_contact_new_world;
          [discriminate | rewrite Hd; reflexivity | assumption]).
    cbn [snd]. unfold Bot.show_all. cbn [Bot.objects Bot.data].
    rewrite Hd. cbn [app fold_left fst snd].
    rewrite bool_decide_eq_false_2 by discriminate. f_equal. f_equal.
    unfold Record_str, phone_strs, Bot.nl.
    cbn [name phones birthday omap list_omap].
    rewrite lookup_insert_eq. cbn [fmap option_fmap option_map Text.join].
    unfold Field_str. cbn [value Text.py_str].
    match goal with
    | |- Text.strip ?x = ?y =>
        replace x with (y ++ [10])
          by (cbn [app]; rewrite <- !app_assoc; cbn [app];
              rewrite <- !app_assoc; reflexivity)
    end.
    apply (strip_line _ c 101); [reflexivity | | exact Hc | reflexivity].
    repeat first [rewrite last_app | rewrite last_cons]. reflexivity.
Qed.

(** Ann is the first contact. *)
Lemma first_contact_is_listed_witness :
  Bot.show_all w_ann
  = (Ok (str "Ann: Contact name: Ann, phone: 1111111111, birthdate: None"),
     w_ann).
Proof.
  destruct (first_contact_is_listed w_empty eq_refl) as [_ H].
  exact (H 65 (str "nn") s1111 eq_refl eq_refl).
Defined.
